(** * Payslip module: validation, derived values and persistence

    A shallow embedding of [Backend/server.js] and of the table definition
    of the [payslips] relation, with the properties of the validation,
    computation and persistence engine stated over it.

    Conventions.
    - A JavaScript string is a sequence of code units; here a code unit is
      an [ascii], so the strings covered are those whose code units are
      below 256 (Latin-1).
    - A JavaScript number is an IEEE 754 binary64 value, Rocq's primitive
      [float]; numbers that the code only uses as small integers (calendar
      fields, row ids, HTTP status codes) are in [Z] or [nat].
    - The body of a request is well typed: a field that is present holds
      a value of the type the data model gives it, and a field that is
      missing ([undefined] or [null]) is [None].
    - The storage is the table with its constraints; requests reach it one
      statement at a time, and it is always available. *)

From Stdlib Require Import List String Ascii ZArith Bool Lia Arith.
From Stdlib Require Import Floats Sorting.Permutation Sorting.Sorted.
Import ListNotations.

Local Open Scope string_scope.
Local Open Scope list_scope.
Local Open Scope nat_scope.

Set Implicit Arguments.
Set Warnings "-inexact-float".

(** ** Code units and the character classes of the patterns *)

Module Chars.

Definition code (c : ascii) : nat := nat_of_ascii c.

Definition between (lo hi : nat) (c : ascii) : bool :=
  (lo <=? code c) && (code c <=? hi).

(** [\d] *)
Definition digit : ascii -> bool := between 48 57.
(** [[A-Z]] *)
Definition upper : ascii -> bool := between 65 90.
(** [[a-z]] *)
Definition lower : ascii -> bool := between 97 122.
(** [[A-Za-z]] *)
Definition alpha (c : ascii) : bool := upper c || lower c.

(** [\s], and what [String.prototype.trim] strips: the white space and line
    terminator code units below 256 (TAB, LF, VT, FF, CR, SP, NBSP). *)
Definition space (c : ascii) : bool :=
  between 9 13 c || (code c =? 32) || (code c =? 160).

End Chars.

(** ** Regular expressions

    The patterns of the program are kept as syntax and run by one
    backtracking matcher.  A cursor is the offset reached in the subject
    string and the code units still to read. *)

Module Regex.

Inductive regex : Type :=
| Empty                       (* the empty pattern *)
| Lit (c : ascii)             (* a literal code unit *)
| Class (p : ascii -> bool)   (* a class: [\d], [\s], [[A-Za-z]] ... *)
| Cat (r1 r2 : regex)         (* r1 r2 *)
| Alt (r1 r2 : regex)         (* r1|r2 *)
| Star (r : regex)            (* r*, greedy *)
| NotAhead (r : regex)        (* (?!r) *)
| Bol                         (* ^ *)
| Eol.                        (* $ *)

(** r+, r{n} and r{n,m} by expansion (the quantifiers are greedy). *)
Definition Plus (r : regex) : regex := Cat r (Star r).

Fixpoint Rep (n : nat) (r : regex) : regex :=
  match n with
  | O => Empty
  | S n' => Cat r (Rep n' r)
  end.

Fixpoint UpTo (n : nat) (r : regex) : regex :=
  match n with
  | O => Empty
  | S n' => Alt (Cat r (UpTo n' r)) Empty
  end.

Definition Range (n m : nat) (r : regex) : regex :=
  Cat (Rep n r) (UpTo (m - n) r).

(** A run of literal code units. *)
Fixpoint Lits (cs : list ascii) : regex :=
  match cs with
  | [] => Empty
  | c :: cs' => Cat (Lit c) (Lits cs')
  end.

Definition cursor : Type := (nat * list ascii)%type.

Definition advanced (st st' : cursor) : bool :=
  List.length (snd st') <? List.length (snd st).

Definition step (p : ascii -> bool) (st : cursor) : list cursor :=
  match snd st with
  | x :: xs => if p x then [(S (fst st), xs)] else []
  | [] => []
  end.

(** The iteration of a starred pattern: each round must advance, so the
    number of code units still to read is fuel enough. *)
Fixpoint iterate (once : cursor -> list cursor) (fuel : nat) (st : cursor)
    : list cursor :=
  match fuel with
  | O => [st]
  | S fuel' =>
      flat_map (iterate once fuel') (filter (advanced st) (once st)) ++ [st]
  end.

(** [run r st]: every cursor the pattern can stop at when started at [st],
    in the order a backtracking matcher tries them.  An iteration of [Star]
    that reads nothing is dropped, as the empty check of the language does. *)
Fixpoint run (r : regex) (st : cursor) : list cursor :=
  match r with
  | Empty => [st]
  | Lit c => step (Ascii.eqb c) st
  | Class p => step p st
  | Cat r1 r2 => flat_map (run r2) (run r1 st)
  | Alt r1 r2 => run r1 st ++ run r2 st
  | Star r' => iterate (run r') (List.length (snd st)) st
  | NotAhead r' => match run r' st with [] => [st] | _ :: _ => [] end
  | Bol => if (fst st =? 0)%nat then [st] else []
  | Eol => match snd st with [] => [st] | _ :: _ => [] end
  end.

Definition matches_at (r : regex) (s : list ascii) (i : nat) : bool :=
  match run r (i, skipn i s) with [] => false | _ :: _ => true end.

(** [RegExp.prototype.test] for a pattern without the [g] flag: a match is
    looked for from every offset of the subject, left to right. *)
Definition test (r : regex) (s : string) : bool :=
  let cs := list_ascii_of_string s in
  existsb (matches_at r cs) (seq 0 (S (List.length cs))).

(** The number of matches [String.prototype.match] returns for a one-class
    pattern with the [g] flag. *)
Definition count_class (p : ascii -> bool) (s : string) : nat :=
  List.length (filter p (list_ascii_of_string s)).

(** [acc r k st]: the pattern can stop at a cursor that [k] accepts. *)
Definition acc (r : regex) (k : cursor -> bool) (st : cursor) : bool :=
  existsb k (run r st).

Definition finish (st : cursor) : bool := true.

End Regex.

Import Regex.


(** ** Strings of the language *)

Module JsString.

Definition chars (s : string) : list ascii := list_ascii_of_string s.
Definition of_chars (cs : list ascii) : string := string_of_list_ascii cs.

Fixpoint drop_while (p : ascii -> bool) (cs : list ascii) : list ascii :=
  match cs with
  | [] => []
  | c :: cs' => if p c then drop_while p cs' else cs
  end.

(** [String.prototype.trim]: white space is removed at both ends. *)
Definition trim_chars (cs : list ascii) : list ascii :=
  rev (drop_while Chars.space (rev (drop_while Chars.space cs))).

Definition trim (s : string) : string := of_chars (trim_chars (chars s)).

(** [s.padStart(n, "0")] *)
Definition padStart0 (n : nat) (s : string) : string :=
  of_chars (repeat "0"%char (n - String.length s)) ++ s.

(** [s.split(sep)] for a separator of one code unit. *)
Fixpoint split_chars (sep : ascii) (cs : list ascii) : list (list ascii) :=
  match cs with
  | [] => [[]]
  | c :: cs' =>
      if Ascii.eqb c sep then [] :: split_chars sep cs'
      else match split_chars sep cs' with
           | part :: parts => (c :: part) :: parts
           | [] => [[c]]
           end
  end.

Definition split (sep : ascii) (s : string) : list string :=
  map of_chars (split_chars sep (chars s)).

(** [!s] for a string that may be missing: the empty string is falsy. *)
Definition falsy (s : option string) : bool :=
  match s with
  | None => true
  | Some s' => (String.length s' =? 0)
  end.

Definition truthy (s : option string) : bool := negb (falsy s).

End JsString.

(** ** Numbers of the language *)

Module JsNumber.

Local Open Scope float_scope.

Definition isNaN (x : float) : bool := PrimFloat.is_nan x.

(** [x === 0]: true of both zeros, false of NaN. *)
Definition is_zero (x : float) : bool := (x =? 0).

(** [!x]: zero and NaN are falsy. *)
Definition falsy (x : option float) : bool :=
  match x with
  | None => true
  | Some f => is_zero f || isNaN f
  end.

Definition truthy (x : option float) : bool := negb (falsy x).

Definition of_Z (n : Z) : float :=
  if (n <? 0)%Z then - PrimFloat.of_uint63 (Uint63.of_Z (- n))
  else PrimFloat.of_uint63 (Uint63.of_Z n).

(** The integer nearest to [num / 2^k], a tie going to the larger one:
    the floor of [num / 2^k + 1/2]. *)
Definition nearest (num k : Z) : Z :=
  ((2 * num + 2 ^ k) / 2 ^ (k + 1))%Z.

(** [Math.round]: the integer nearest to [x], a tie going to the larger
    one; NaN, the infinities, the zeros and every value that is already an
    integer are returned as they are, and a negative value that rounds to
    zero gives the negative zero.  A finite [x] is [m * 2^e] for integers
    [m] and [e], and is an integer when [e] is not negative. *)
Definition Math_round (x : float) : float :=
  match Prim2SF x with
  | S754_finite s m e =>
      if (0 <=? e)%Z then x
      else
        let n := nearest (if s then Z.neg m else Z.pos m) (- e) in
        if (n =? 0)%Z then (if s then (- 0) else 0) else of_Z n
  | _ => x
  end.

End JsNumber.

(** ** Field validators *)

(** [/^ATS0(?!000)\d{3}$/] *)
Definition employeeId_regex : regex :=
  Cat Bol (Cat (Lits ["A"; "T"; "S"; "0"]%char)
    (Cat (NotAhead (Lits ["0"; "0"; "0"]%char))
      (Cat (Rep 3 (Class Chars.digit)) Eol))).

Definition validateEmployeeId (id : string) : bool :=
  test employeeId_regex id.

(** [/^[A-Z]{5}\d{4}[A-Z]$/] *)
Definition pan_regex : regex :=
  Cat Bol (Cat (Rep 5 (Class Chars.upper))
    (Cat (Rep 4 (Class Chars.digit)) (Cat (Class Chars.upper) Eol))).

Definition validatePAN (pan : string) : bool := test pan_regex pan.

(** [/^[A-Za-z]+(?:\s[A-Za-z]+)*$/] *)
Definition alphabetic_regex : regex :=
  Cat Bol (Cat (Plus (Class Chars.alpha))
    (Cat (Star (Cat (Class Chars.space) (Plus (Class Chars.alpha)))) Eol)).

Definition validateAlphabeticWithSpaces (input : string) : bool :=
  let alphaCount := count_class Chars.alpha input in
  let trimmedInput := JsString.trim input in
  (5 <=? String.length trimmedInput) && (String.length trimmedInput <=? 30)
  && test alphabetic_regex trimmedInput && (5 <=? alphaCount).

(** [/^\d{9,16}$/] *)
Definition account_regex : regex :=
  Cat Bol (Cat (Range 9 16 (Class Chars.digit)) Eol).

Definition validateBankAccount (account : string) : bool :=
  test account_regex (JsString.trim account).

Definition validateComponentName (name : string) : bool :=
  validateAlphabeticWithSpaces name.

(** ** Derived values *)

Definition calculateLOPDeduction (grossPay workingDays lop : float) : float :=
  if JsNumber.isNaN grossPay || JsNumber.isNaN workingDays
     || JsNumber.isNaN lop || JsNumber.is_zero workingDays
  then 0%float
  else
    let dailyRate := (grossPay / workingDays)%float in
    (JsNumber.Math_round (dailyRate * lop * 100) / 100)%float.

(** ** Numerals *)

Module Numeral.

Local Open Scope Z_scope.

Definition digit_value (c : ascii) : Z := Z.of_nat (Chars.code c) - 48.

Fixpoint decimal (acc : Z) (cs : list ascii) : Z :=
  match cs with
  | [] => acc
  | c :: cs' => decimal (10 * acc + digit_value c) cs'
  end.

(** [Number(s)] on the strings a period key is made of.  White space is
    trimmed, the empty string is 0 and a run of decimal digits is its
    value.  [None] is NaN; it is also the answer given here for the other
    numerals of the language (signs, fractions, exponents, radix
    prefixes), which the parts of a stored period key never are. *)
Definition Number (s : string) : option Z :=
  let cs := JsString.trim_chars (JsString.chars s) in
  if forallb Chars.digit cs then Some (decimal 0 cs) else None.

(** [Number] of a value that may be [undefined]. *)
Definition NumberOpt (s : option string) : option Z :=
  match s with
  | Some s' => Number s'
  | None => None
  end.

Fixpoint take_while (p : ascii -> bool) (cs : list ascii) : list ascii :=
  match cs with
  | [] => []
  | c :: cs' => if p c then c :: take_while p cs' else []
  end.

Definition hex_digit (c : ascii) : bool :=
  Chars.digit c || Chars.between 65 70 c || Chars.between 97 102 c.

Definition hex_value (c : ascii) : Z :=
  if Chars.digit c then digit_value c
  else if Chars.between 65 70 c then Z.of_nat (Chars.code c) - 55
  else Z.of_nat (Chars.code c) - 87.

Fixpoint hexadecimal (acc : Z) (cs : list ascii) : Z :=
  match cs with
  | [] => acc
  | c :: cs' => hexadecimal (16 * acc + hex_value c) cs'
  end.

(** [parseInt(s)] without a radix: leading white space, an optional sign,
    an optional [0x] prefix, then the longest run of digits; [None] is
    NaN. *)
Definition parseInt (s : string) : option Z :=
  let cs := JsString.drop_while Chars.space (JsString.chars s) in
  let '(sign, cs) :=
    match cs with
    | "-"%char :: cs' => (-1, cs')
    | "+"%char :: cs' => (1, cs')
    | _ => (1, cs)
    end in
  match cs with
  | "0"%char :: "x"%char :: cs' | "0"%char :: "X"%char :: cs' =>
      match take_while hex_digit cs' with
      | [] => None
      | ds => Some (sign * hexadecimal 0 ds)
      end
  | _ =>
      match take_while Chars.digit cs with
      | [] => None
      | ds => Some (sign * decimal 0 ds)
      end
  end.

Definition parseIntOpt (s : option string) : option Z :=
  match s with
  | Some s' => parseInt s'
  | None => None
  end.

End Numeral.

(** ** Dates

    The day arithmetic of the [Date] objects of the language (ECMA-262,
    Time Values and Time Range), in whole days since 1 January 1970.  A
    date built from a year, a month and a day is local midnight of that
    day, and [getDate] and [getMonth] read it back in local time, so the
    offset of the time zone cancels and is left out. *)

Module JsDate.

Local Open Scope Z_scope.

Definition InLeapYear (y : Z) : bool :=
  (y mod 4 =? 0) && (negb (y mod 100 =? 0) || (y mod 400 =? 0)).

Definition DaysInYear (y : Z) : Z := if InLeapYear y then 366 else 365.

Definition DayFromYear (y : Z) : Z :=
  365 * (y - 1970) + (y - 1969) / 4 - (y - 1901) / 100 + (y - 1601) / 400.

Fixpoint climb (fuel : nat) (y d : Z) : Z :=
  match fuel with
  | O => y
  | S fuel' => if DayFromYear (y + 1) <=? d then climb fuel' (y + 1) d else y
  end.

(** [YearFromTime]: the largest year that starts on or before day [d],
    searched upwards from a year that is not after it. *)
Definition YearFromDay (d : Z) : Z :=
  let y0 := 1970 + (if d <? 0 then d / 365 else d / 366) in
  climb (Z.to_nat (Z.abs d / 100000 + 2)) y0 d.

Definition DayWithinYear (d : Z) : Z := d - DayFromYear (YearFromDay d).

Definition leap_day (d : Z) : Z :=
  if InLeapYear (YearFromDay d) then 1 else 0.

Definition MonthFromDay (d : Z) : Z :=
  let w := DayWithinYear d in
  let l := leap_day d in
  if w <? 31 then 0
  else if w <? 59 + l then 1
  else if w <? 90 + l then 2
  else if w <? 120 + l then 3
  else if w <? 151 + l then 4
  else if w <? 181 + l then 5
  else if w <? 212 + l then 6
  else if w <? 243 + l then 7
  else if w <? 273 + l then 8
  else if w <? 304 + l then 9
  else if w <? 334 + l then 10
  else 11.

Definition DateFromDay (d : Z) : Z :=
  let w := DayWithinYear d in
  let l := leap_day d in
  match MonthFromDay d with
  | 0 => w + 1
  | 1 => w - 30
  | 2 => w - 58 - l
  | 3 => w - 89 - l
  | 4 => w - 119 - l
  | 5 => w - 150 - l
  | 6 => w - 180 - l
  | 7 => w - 211 - l
  | 8 => w - 242 - l
  | 9 => w - 272 - l
  | 10 => w - 303 - l
  | _ => w - 333 - l
  end.

(** The first day of month [mn] (0 to 11) within a year. *)
Definition month_start (leap : bool) (mn : Z) : Z :=
  let l := if leap then 1 else 0 in
  match mn with
  | 0 => 0
  | 1 => 31
  | 2 => 59 + l
  | 3 => 90 + l
  | 4 => 120 + l
  | 5 => 151 + l
  | 6 => 181 + l
  | 7 => 212 + l
  | 8 => 243 + l
  | 9 => 273 + l
  | 10 => 304 + l
  | _ => 334 + l
  end.

(** [MakeDay(year, month, date)]: months outside 0..11 carry into the
    year, and the day of the month counts on from the first, so day 0 is
    the last day of the month before. *)
Definition MakeDay (year month date : Z) : Z :=
  let ym := year + month / 12 in
  let mn := month mod 12 in
  DayFromYear ym + month_start (InLeapYear ym) mn + date - 1.

(** [new Date(year, month, date)], as the number of its day; [None] is an
    invalid date.  A year from 0 to 99 stands for 1900 + year, and a time
    value beyond 100,000,000 days from the epoch is invalid. *)
Definition make (year month : option Z) (date : Z) : option Z :=
  match year, month with
  | Some y, Some m =>
      let yr := if (0 <=? y) && (y <=? 99) then 1900 + y else y in
      let day := MakeDay yr m date in
      if Z.abs day <=? 100000000 then Some day else None
  | _, _ => None
  end.

Definition getDate (d : option Z) : option Z := option_map DateFromDay d.
Definition getMonth (d : option Z) : option Z := option_map MonthFromDay d.

End JsDate.

Definition monthNames : list string :=
  ["January"; "February"; "March"; "April"; "May"; "June";
   "July"; "August"; "September"; "October"; "November"; "December"].

(** [`${monthNames[i]} ${year}`]: a missing entry of the table, or a
    missing [year], is printed as [undefined]. *)
Definition formatMonthYear (monthYear : string) : string :=
  if (String.length monthYear =? 0) then ""
  else
    let parts := JsString.split "-" monthYear in
    let year := nth_error parts 0 in
    let month := nth_error parts 1 in
    let date :=
      JsDate.make (Numeral.NumberOpt year)
        (option_map (fun m => (m - 1)%Z) (Numeral.parseIntOpt month)) 1 in
    let name :=
      match JsDate.getMonth date with
      | Some i => nth (Z.to_nat i) monthNames "undefined"
      | None => "undefined"
      end in
    (name ++ " " ++ match year with Some y => y | None => "undefined" end)%string.

(** [getDate()] of day 0 of the month after; [None] is NaN. *)
Definition getDaysInMonth (monthYear : string) : option Z :=
  let parts := map Numeral.Number (JsString.split "-" monthYear) in
  let year := match nth_error parts 0 with Some y => y | None => None end in
  let month := match nth_error parts 1 with Some m => m | None => None end in
  JsDate.getDate (JsDate.make year month 0).

(** ** The payslips table

    The table of [init.sql]: its columns, its NOT NULL, CHECK and UNIQUE
    constraints, and the serial key.  What the storage engine does to a
    value on its way into a numeric or date column, the text of its error
    reports, and whether a rejected insert uses up a key, are not part of
    the repository; they are the fields of an [engine], and every property
    is stated for any engine. *)

Record line_item : Type := { component : string; amount : float }.

Module Row.

Record t : Type := {
  id : Z;
  employee_id : string;
  employee_name : option string;
  designation : option string;
  date_joining : option string;
  month_year : string;
  employee_type : option string;
  location : option string;
  bank_name : option string;
  account_no : option string;
  working_days : option Z;
  lop : option Z;
  pan : option string;
  duration : option string;
  earnings : list line_item;
  deductions : list line_item;
  gross_pay : float;
  total_deductions : float;
  net_pay : float;
  provident_fund : option string;
  uan : option string;
  esic : option string;
  created_at : string
}.

End Row.

Module Storage.

Inductive error : Type :=
| InvalidInput (column : string)
| NotNullViolation (column : string)
| CheckViolation (constraint : string)
| UniqueViolation (constraint : string).

Record engine : Type := {
  (* a number sent to an INTEGER column *)
  integer_in : float -> option Z;
  (* a number sent to a DECIMAL(10, 2) column, as it is read back *)
  numeric_in : float -> option float;
  (* a string sent to a DATE column, as it is read back *)
  date_in : string -> option string;
  (* date_joining >= '1990-01-01' AND date_joining <= CURRENT_DATE *)
  date_joining_check : string -> bool;
  (* error.message *)
  message : error -> string;
  (* whether an insert rejected with this error has used up a key *)
  uses_key : error -> bool
}.

Record store : Type := { rows : list Row.t; next_id : Z }.

Definition empty : store := {| rows := []; next_id := 1 |}.

(** The parameters $1 .. $22 of the INSERT statement. *)
Record values : Type := {
  v_employee_id : string;
  v_employee_name : option string;
  v_designation : option string;
  v_date_joining : option string;
  v_month_year : string;
  v_employee_type : option string;
  v_location : option string;
  v_bank_name : option string;
  v_account_no : option string;
  v_working_days : option float;
  v_lop : float;
  v_pan : option string;
  v_duration : option string;
  v_earnings : list line_item;
  v_deductions : list line_item;
  v_gross_pay : option float;
  v_total_deductions : option float;
  v_net_pay : option float;
  v_provident_fund : option string;
  v_uan : option string;
  v_esic : option string;
  v_created_at : string
}.

(** VARCHAR(n): a longer value is an error, unless what exceeds [n] is all
    spaces, which are then cut off. *)
Definition varchar (n : nat) (s : string) : option string :=
  let cs := JsString.chars s in
  if List.length cs <=? n then Some s
  else if forallb (Ascii.eqb " ") (skipn n cs)
       then Some (JsString.of_chars (firstn n cs))
       else None.

(** ['^\d{4}-\d{2}$'] *)
Definition month_year_regex : regex :=
  Cat Bol (Cat (Rep 4 (Class Chars.digit))
    (Cat (Lit "-") (Cat (Rep 2 (Class Chars.digit)) Eol))).

Definition employee_types : list string :=
  ["Permanent"; "Contract"; "Temporary"].

Definition in_range_0_31 (n : Z) : bool := (0 <=? n)%Z && (n <=? 31)%Z.

Definition non_negative (x : float) : bool := (0 <=? x)%float.

(** A CHECK constraint is satisfied by NULL. *)
Definition check_opt {A : Type} (p : A -> bool) (x : option A) : bool :=
  match x with
  | Some a => p a
  | None => true
  end.

(** The conversion of an optional parameter into its column. *)
Definition convert {A B : Type} (column : string) (f : A -> option B)
    (x : option A) : error + option B :=
  match x with
  | None => inr None
  | Some a =>
      match f a with
      | Some b => inr (Some b)
      | None => inl (InvalidInput column)
      end
  end.

Definition required {A B : Type} (column : string) (f : A -> option B)
    (x : option A) : error + B :=
  match x with
  | None => inl (NotNullViolation column)
  | Some a =>
      match f a with
      | Some b => inr b
      | None => inl (InvalidInput column)
      end
  end.

Notation "x <- e ;; k" :=
  (match e with inl err => inl err | inr x => k end)
  (at level 61, e at next level, right associativity).

Definition ensure (ok : bool) (constraint : string) : error + unit :=
  if ok then inr tt else inl (CheckViolation constraint).

Section WithEngine.

Variable E : engine.

(** The row a parameter list becomes under key [i], or the conversion or
    NOT NULL error that stops it. *)
Definition to_row (i : Z) (v : values) : error + Row.t :=
  employee_id <- required "employee_id" (varchar 7) (Some (v_employee_id v)) ;;
  employee_name <- convert "employee_name" (varchar 30) (v_employee_name v) ;;
  designation <- convert "designation" (varchar 30) (v_designation v) ;;
  date_joining <- convert "date_joining" (date_in E) (v_date_joining v) ;;
  month_year <- required "month_year" (varchar 7) (Some (v_month_year v)) ;;
  employee_type <- convert "employee_type" (varchar 20) (v_employee_type v) ;;
  location <- convert "location" (varchar 30) (v_location v) ;;
  bank_name <- convert "bank_name" (varchar 30) (v_bank_name v) ;;
  account_no <- convert "account_no" (varchar 16) (v_account_no v) ;;
  working_days <- convert "working_days" (integer_in E) (v_working_days v) ;;
  lop <- convert "lop" (integer_in E) (Some (v_lop v)) ;;
  pan <- convert "pan" (varchar 10) (v_pan v) ;;
  duration <- convert "duration" (varchar 100) (v_duration v) ;;
  gross_pay <- required "gross_pay" (numeric_in E) (v_gross_pay v) ;;
  total_deductions <-
    required "total_deductions" (numeric_in E) (v_total_deductions v) ;;
  net_pay <- required "net_pay" (numeric_in E) (v_net_pay v) ;;
  provident_fund <- convert "provident_fund" (varchar 20) (v_provident_fund v) ;;
  uan <- convert "uan" (varchar 20) (v_uan v) ;;
  esic <- convert "esic" (varchar 20) (v_esic v) ;;
  inr {| Row.id := i;
         Row.employee_id := employee_id;
         Row.employee_name := employee_name;
         Row.designation := designation;
         Row.date_joining := date_joining;
         Row.month_year := month_year;
         Row.employee_type := employee_type;
         Row.location := location;
         Row.bank_name := bank_name;
         Row.account_no := account_no;
         Row.working_days := working_days;
         Row.lop := lop;
         Row.pan := pan;
         Row.duration := duration;
         Row.earnings := v_earnings v;
         Row.deductions := v_deductions v;
         Row.gross_pay := gross_pay;
         Row.total_deductions := total_deductions;
         Row.net_pay := net_pay;
         Row.provident_fund := provident_fund;
         Row.uan := uan;
         Row.esic := esic;
         Row.created_at := v_created_at v |}.

(** The CHECK constraints of the table, under the names the engine gives
    to unnamed column constraints. *)
Definition checks (r : Row.t) : error + unit :=
  _ <- ensure (test employeeId_regex (Row.employee_id r))
         "payslips_employee_id_check" ;;
  _ <- ensure (check_opt (date_joining_check E) (Row.date_joining r))
         "payslips_date_joining_check" ;;
  _ <- ensure (test month_year_regex (Row.month_year r))
         "payslips_month_year_check" ;;
  _ <- ensure (check_opt (fun t => existsb (String.eqb t) employee_types)
                 (Row.employee_type r))
         "payslips_employee_type_check" ;;
  _ <- ensure (check_opt (test account_regex) (Row.account_no r))
         "payslips_account_no_check" ;;
  _ <- ensure (check_opt in_range_0_31 (Row.working_days r))
         "payslips_working_days_check" ;;
  _ <- ensure (check_opt in_range_0_31 (Row.lop r)) "payslips_lop_check" ;;
  _ <- ensure (check_opt (test pan_regex) (Row.pan r)) "payslips_pan_check" ;;
  _ <- ensure (non_negative (Row.gross_pay r)) "payslips_gross_pay_check" ;;
  _ <- ensure (non_negative (Row.total_deductions r))
         "payslips_total_deductions_check" ;;
  _ <- ensure (non_negative (Row.net_pay r)) "payslips_net_pay_check" ;;
  inr tt.

(** [employee_id = e AND month_year = m] *)
Definition same_identity (e m : string) (r : Row.t) : bool :=
  String.eqb (Row.employee_id r) e && String.eqb (Row.month_year r) m.

(** CONSTRAINT unique_employee_month_year UNIQUE (employee_id, month_year) *)
Definition unique (s : store) (r : Row.t) : error + unit :=
  if existsb (same_identity (Row.employee_id r) (Row.month_year r)) (rows s)
  then inl (UniqueViolation "unique_employee_month_year")
  else inr tt.

(** INSERT INTO payslips (...) VALUES (...) RETURNING id *)
Definition insert (s : store) (v : values) : error + (store * Z) :=
  r <- to_row (next_id s) v ;;
  _ <- checks r ;;
  _ <- unique s r ;;
  inr ({| rows := rows s ++ [r]; next_id := (next_id s + 1)%Z |}, Row.id r).

(** The table after an insert was rejected: no row is stored, and a key
    of the sequence may be gone. *)
Definition rejected (s : store) (err : error) : store :=
  if uses_key E err
  then {| rows := rows s; next_id := (next_id s + 1)%Z |}
  else s.

End WithEngine.

(** SELECT id FROM payslips WHERE employee_id = $1 AND month_year = $2 *)
Definition select_identity (s : store) (e m : string) : list Row.t :=
  filter (same_identity e m) (rows s).

(** [subject LIKE pattern]: [%] stands for any run of code units, [_] for
    any one, and a backslash makes the next code unit of the pattern stand
    for itself.  (A pattern that ends in a lone backslash is an error of
    the engine; the one pattern of the program ends in [%].) *)
Fixpoint like (pattern : list ascii) : list ascii -> bool :=
  match pattern with
  | [] => fun subject => match subject with [] => true | _ :: _ => false end
  | "%"%char :: pattern' =>
      fix any (subject : list ascii) : bool :=
        like pattern' subject
        || match subject with
           | [] => false
           | _ :: subject' => any subject'
           end
  | "_"%char :: pattern' =>
      fun subject =>
        match subject with
        | [] => false
        | _ :: subject' => like pattern' subject'
        end
  | "\"%char :: c :: pattern' =>
      fun subject =>
        match subject with
        | [] => false
        | x :: subject' => Ascii.eqb x c && like pattern' subject'
        end
  | c :: pattern' =>
      fun subject =>
        match subject with
        | [] => false
        | x :: subject' => Ascii.eqb x c && like pattern' subject'
        end
  end.

(** SELECT * FROM payslips WHERE employee_id = $1 AND month_year LIKE $2 *)
Definition select_like (s : store) (e pattern : string) : list Row.t :=
  filter (fun r => String.eqb (Row.employee_id r) e
                   && like (JsString.chars pattern)
                        (JsString.chars (Row.month_year r)))
    (rows s).

(** SELECT * FROM payslips WHERE id = $1 *)
Definition select_id (s : store) (i : Z) : list Row.t :=
  filter (fun r => (Row.id r =? i)%Z) (rows s).

(** DELETE FROM payslips WHERE id = $1, with its [rowCount]. *)
Definition delete_id (s : store) (i : Z) : store * nat :=
  ({| rows := filter (fun r => negb (Row.id r =? i)%Z) (rows s);
      next_id := next_id s |},
   List.length (select_id s i)).

End Storage.

(** ** Requests and responses *)

(** [req.body] of a create request. *)
Module Body.

Record t : Type := {
  employeeId : option string;
  employeeName : option string;
  designation : option string;
  dateJoining : option string;
  monthYear : option string;
  employeeType : option string;
  location : option string;
  bankName : option string;
  accountNo : option string;
  workingDays : option float;
  lop : option float;
  pan : option string;
  duration : option string;
  earnings : option (list line_item);
  deductions : option (list line_item);
  grossPay : option float;
  totalDeductions : option float;
  netPay : option float;
  providentFund : option string;
  uan : option string;
  esic : option string
}.

End Body.

(** [req.query] of a read by identity. *)
Module Query.

Record t : Type := {
  employeeId : option string;
  month : option string;
  year : option string
}.

End Query.

(** The record a read by identity answers with. *)
Module View.

Record t : Type := {
  id : Z;
  employeeId : string;
  employeeName : option string;
  designation : option string;
  dateJoining : option string;
  monthYear : string;
  monthYearFormatted : string;
  employeeType : option string;
  location : option string;
  bankName : option string;
  accountNo : option string;
  workingDays : option Z;
  daysInMonth : option Z;
  lop : option Z;
  pan : option string;
  duration : option string;
  earnings : list line_item;
  deductions : list line_item;
  grossPay : float;
  totalDeductions : float;
  netPay : float;
  providentFund : option string;
  uan : option string;
  esic : option string
}.

End View.

Inductive json : Type :=
| Error (error : string)
| Created (id : Z) (message : string)
| Payslip (payslip : View.t)
| Record_ (payslip : Row.t)
| Message (message : string).

(** [res.status(status).json(body)] *)
Record response : Type := { status : nat; body : json }.

Definition reply (status : nat) (body : json) : response :=
  {| status := status; body := body |}.

(** What running a handler body comes to: a response was sent, or an
    exception was thrown (and is caught by the handler's [catch]). *)
Inductive outcome : Type :=
| Sent (r : response)
| Thrown (message : string).

(** ** The create handler: POST /api/payslips *)

Definition or_null (s : option string) : option string :=
  if JsString.truthy s then s else None.

Definition text (s : option string) : string :=
  match s with
  | Some s' => s'
  | None => ""
  end.

(** [x && !valid(x)] for an optional string field. *)
Definition present_and_not (valid : string -> bool) (s : option string) : bool :=
  JsString.truthy s && negb (valid (text s)).

(** [x && (isNaN(x) || x < 0 || x > 31)] *)
Definition present_and_outside_0_31 (x : option float) : bool :=
  match x with
  | Some f =>
      JsNumber.truthy x
      && (JsNumber.isNaN f || (f <? 0)%float || (31 <? f)%float)
  | None => false
  end.

(** The loop over a collection of line items: the response of the first
    item that is rejected. *)
Fixpoint check_items (kind : string) (items : list line_item) : option response :=
  match items with
  | [] => None
  | item :: items' =>
      if negb (validateComponentName (component item)) then
        Some (reply 400 (Error ("Invalid " ++ kind ++ " component name: "
                                  ++ component item)%string))
      else if JsNumber.isNaN (amount item) || (amount item <? 0)%float then
        Some (reply 400 (Error ("Invalid " ++ kind ++ " amount for "
                                  ++ component item)%string))
      else check_items kind items'
  end.

Definition duplicate_message : string :=
  "Payslip already exists for this Employee ID and Month/Year".

(** The message of the TypeError raised by [for (... of undefined)]. *)
Definition not_iterable (name : string) : string :=
  (name ++ " is not iterable")%string.

Definition insert_values (b : Body.t) (now : string) : Storage.values :=
  {| Storage.v_employee_id := text (Body.employeeId b);
     Storage.v_employee_name := or_null (Body.employeeName b);
     Storage.v_designation := or_null (Body.designation b);
     Storage.v_date_joining := or_null (Body.dateJoining b);
     Storage.v_month_year := text (Body.monthYear b);
     Storage.v_employee_type := or_null (Body.employeeType b);
     Storage.v_location := or_null (Body.location b);
     Storage.v_bank_name := or_null (Body.bankName b);
     Storage.v_account_no := or_null (Body.accountNo b);
     Storage.v_working_days :=
       if JsNumber.truthy (Body.workingDays b) then Body.workingDays b else None;
     Storage.v_lop :=
       match Body.lop b with
       | Some f => if JsNumber.truthy (Body.lop b) then f else 0%float
       | None => 0%float
       end;
     Storage.v_pan := or_null (Body.pan b);
     Storage.v_duration := or_null (Body.duration b);
     Storage.v_earnings := match Body.earnings b with Some l => l | None => [] end;
     Storage.v_deductions :=
       match Body.deductions b with Some l => l | None => [] end;
     Storage.v_gross_pay := Body.grossPay b;
     Storage.v_total_deductions := Body.totalDeductions b;
     Storage.v_net_pay := Body.netPay b;
     Storage.v_provident_fund := or_null (Body.providentFund b);
     Storage.v_uan := or_null (Body.uan b);
     Storage.v_esic := or_null (Body.esic b);
     Storage.v_created_at := now |}.

(** The checks of the handler, in the order of the code.  Each stage
    gives the response it returns early, if it does. *)

Definition bad_request (message : string) : option response :=
  Some (reply 400 (Error message)).

(** Validate required fields *)
Definition validate_fields (b : Body.t) : option response :=
  if JsString.falsy (Body.employeeId b) || JsString.falsy (Body.monthYear b) then
    bad_request "Employee ID and Month/Year are required"
  else if negb (validateEmployeeId (text (Body.employeeId b))) then
    bad_request "Invalid Employee ID format (e.g., ATS0123)"
  else if present_and_not validateAlphabeticWithSpaces (Body.employeeName b) then
    bad_request "Invalid Employee Name (min 5 letters, max 30)"
  else if present_and_not validateAlphabeticWithSpaces (Body.designation b) then
    bad_request "Invalid Designation (min 5 letters, max 30)"
  else if present_and_not validateAlphabeticWithSpaces (Body.location b) then
    bad_request "Invalid Location (min 5 letters, max 30)"
  else if present_and_not validateAlphabeticWithSpaces (Body.bankName b) then
    bad_request "Invalid Bank Name (min 5 letters, max 30)"
  else if present_and_not validatePAN (Body.pan b) then
    bad_request "Invalid PAN format (e.g., ABCDE1234F)"
  else if present_and_not validateBankAccount (Body.accountNo b) then
    bad_request "Invalid Bank Account Number (9-16 digits)"
  else if present_and_outside_0_31 (Body.workingDays b) then
    bad_request "Working Days must be between 0 and 31"
  else if present_and_outside_0_31 (Body.lop b) then
    bad_request "LOP must be between 0 and 31"
  else None.

(** Validate earnings: [!earnings || earnings.length === 0], then the loop. *)
Definition validate_earnings (b : Body.t) : option response :=
  match Body.earnings b with
  | None | Some [] => bad_request "At least one earning is required"
  | Some earnings => check_items "earning" earnings
  end.

(** Validate deductions: the loop alone; a missing collection cannot be
    iterated. *)
Definition validate_deductions (b : Body.t) : option outcome :=
  match Body.deductions b with
  | None => Some (Thrown (not_iterable "deductions"))
  | Some deductions => option_map Sent (check_items "deduction" deductions)
  end.

Definition validation (b : Body.t) : option outcome :=
  match validate_fields b with
  | Some rejected => Some (Sent rejected)
  | None =>
      match validate_earnings b with
      | Some rejected => Some (Sent rejected)
      | None => validate_deductions b
      end
  end.

Section Handlers.

Variable E : Storage.engine.

(** The two statements of a create: the look-up for a duplicate, then the
    insert.  They are separate statements, so the table the insert meets
    is the table the look-up saw after whatever other requests did to it
    in between, [between s]. *)
Definition create_statements (between : Storage.store -> Storage.store)
    (now : string) (s : Storage.store) (b : Body.t)
    : outcome * Storage.store :=
  let checkResult :=
    Storage.select_identity s (text (Body.employeeId b)) (text (Body.monthYear b)) in
  if 0 <? List.length checkResult then
    (Sent (reply 400 (Error duplicate_message)), s)
  else
    let s' := between s in
    match Storage.insert E s' (insert_values b now) with
    | inr (s'', id) =>
        (Sent (reply 201 (Created id "Payslip created successfully")), s'')
    | inl err => (Thrown (Storage.message E err), Storage.rejected E s' err)
    end.

(** The body of the [try] block. *)
Definition create_body (between : Storage.store -> Storage.store)
    (now : string) (s : Storage.store) (b : Body.t)
    : outcome * Storage.store :=
  match validation b with
  | Some stopped => (stopped, s)
  | None => create_statements between now s b
  end.

(** [try { ... } catch (error) { res.status(500)... }] *)
Definition caught (o : outcome) : response :=
  match o with
  | Sent r => r
  | Thrown message =>
      reply 500 (Error ("Internal server error: " ++ message)%string)
  end.

Definition create_with (between : Storage.store -> Storage.store)
    (now : string) (s : Storage.store) (b : Body.t)
    : response * Storage.store :=
  let '(o, s') := create_body between now s b in (caught o, s').

(** A create that no other request interleaves with. *)
Definition create (now : string) (s : Storage.store) (b : Body.t)
    : response * Storage.store :=
  create_with (fun s => s) now s b.

(** ** The read by identity: GET /api/payslips *)

Definition view (payslip : Row.t) : View.t :=
  {| View.id := Row.id payslip;
     View.employeeId := Row.employee_id payslip;
     View.employeeName := Row.employee_name payslip;
     View.designation := Row.designation payslip;
     View.dateJoining := Row.date_joining payslip;
     View.monthYear := Row.month_year payslip;
     View.monthYearFormatted := formatMonthYear (Row.month_year payslip);
     View.employeeType := Row.employee_type payslip;
     View.location := Row.location payslip;
     View.bankName := Row.bank_name payslip;
     View.accountNo := Row.account_no payslip;
     View.workingDays := Row.working_days payslip;
     View.daysInMonth := getDaysInMonth (Row.month_year payslip);
     View.lop := Row.lop payslip;
     View.pan := Row.pan payslip;
     View.duration := Row.duration payslip;
     View.earnings := Row.earnings payslip;
     View.deductions := Row.deductions payslip;
     View.grossPay := Row.gross_pay payslip;
     View.totalDeductions := Row.total_deductions payslip;
     View.netPay := Row.net_pay payslip;
     View.providentFund := Row.provident_fund payslip;
     View.uan := Row.uan payslip;
     View.esic := Row.esic payslip |}.

(** [`${year}-${month.padStart(2, '0')}`] *)
Definition period_of (year month : string) : string :=
  (year ++ "-" ++ JsString.padStart0 2 month)%string.

Definition getByIdentity (s : Storage.store) (q : Query.t) : response :=
  if JsString.falsy (Query.employeeId q) || JsString.falsy (Query.month q)
     || JsString.falsy (Query.year q) then
    reply 400 (Error "Employee ID, month, and year are required")
  else if negb (validateEmployeeId (text (Query.employeeId q))) then
    reply 400 (Error "Invalid Employee ID format (e.g., ATS0123)")
  else
    let monthYear := period_of (text (Query.year q)) (text (Query.month q)) in
    let result :=
      Storage.select_like s (text (Query.employeeId q)) (monthYear ++ "%")%string in
    match result with
    | [] => reply 404 (Error "No payslips found")
    | payslip :: _ => reply 200 (Payslip (view payslip))
    end.

(** ** The read and the delete by key: GET and DELETE /api/payslips/:id *)


Definition deleteById (s : Storage.store) (id : Z) : response * Storage.store :=
  let '(s', rowCount) := Storage.delete_id s id in
  if rowCount =? 0 then (reply 404 (Error "Payslip not found"), s')
  else (reply 200 (Message "Payslip deleted successfully"), s').

End Handlers.

(** ** Sample data

    An engine and a request on which the properties below are run. *)

Module Sample.

(** An integral number as an integer; anything else is refused. *)
Definition integer_in (x : float) : option Z :=
  match Prim2SF x with
  | S754_zero _ => Some 0%Z
  | S754_finite s m e =>
      let n := if s then Z.neg m else Z.pos m in
      if (0 <=? e)%Z then Some (n * 2 ^ e)%Z
      else if (n mod 2 ^ (- e) =? 0)%Z then Some (n / 2 ^ (- e))%Z
      else None
  | _ => None
  end.

(** A finite number is kept as it is. *)
Definition numeric_in (x : float) : option float :=
  match Prim2SF x with
  | S754_zero _ | S754_finite _ _ _ => Some x
  | _ => None
  end.

Definition message (e : Storage.error) : string :=
  match e with
  | Storage.InvalidInput column =>
      "invalid input value for column " ++ column
  | Storage.NotNullViolation column =>
      "null value in column " ++ column ++ " violates not-null constraint"
  | Storage.CheckViolation constraint =>
      "new row for relation payslips violates check constraint " ++ constraint
  | Storage.UniqueViolation constraint =>
      "duplicate key value violates unique constraint " ++ constraint
  end%string.

Definition engine : Storage.engine :=
  {| Storage.integer_in := integer_in;
     Storage.numeric_in := numeric_in;
     Storage.date_in := fun s => Some s;
     Storage.date_joining_check := fun _ => true;
     Storage.message := message;
     Storage.uses_key :=
       fun e => match e with Storage.InvalidInput _ => false | _ => true end |}.

Definition basic : line_item :=
  {| component := "Basic Salary"; amount := 30000%float |}.

Definition provident : line_item :=
  {| component := "Provident Fund"; amount := 1800%float |}.

Definition body (earnings deductions : option (list line_item)) : Body.t :=
  {| Body.employeeId := Some "ATS0123";
     Body.employeeName := Some "John Smith";
     Body.designation := Some "Engineer";
     Body.dateJoining := Some "2020-06-01";
     Body.monthYear := Some "2024-01";
     Body.employeeType := Some "Permanent";
     Body.location := Some "Hyderabad";
     Body.bankName := Some "State Bank";
     Body.accountNo := Some "123456789012";
     Body.workingDays := Some 30%float;
     Body.lop := Some 2%float;
     Body.pan := Some "ABCDE1234F";
     Body.duration := None;
     Body.earnings := earnings;
     Body.deductions := deductions;
     Body.grossPay := Some 30000%float;
     Body.totalDeductions := Some 1800%float;
     Body.netPay := Some 28200%float;
     Body.providentFund := None;
     Body.uan := None;
     Body.esic := None |}.

(** A complete request for (ATS0123, 2024-01). *)
Definition payslip : Body.t := body (Some [basic]) (Some [provident]).

Definition now : string := "2024-02-01T09:00:00.000Z".
Definition later : string := "2024-02-01T09:05:00.000Z".

(** The same request with a space after the period key. *)
Definition padded : Body.t :=
  {| Body.employeeId := Body.employeeId payslip;
     Body.employeeName := Body.employeeName payslip;
     Body.designation := Body.designation payslip;
     Body.dateJoining := Body.dateJoining payslip;
     Body.monthYear := Some "2024-01 ";
     Body.employeeType := Body.employeeType payslip;
     Body.location := Body.location payslip;
     Body.bankName := Body.bankName payslip;
     Body.accountNo := Body.accountNo payslip;
     Body.workingDays := Body.workingDays payslip;
     Body.lop := Body.lop payslip;
     Body.pan := Body.pan payslip;
     Body.duration := Body.duration payslip;
     Body.earnings := Body.earnings payslip;
     Body.deductions := Body.deductions payslip;
     Body.grossPay := Body.grossPay payslip;
     Body.totalDeductions := Body.totalDeductions payslip;
     Body.netPay := Body.netPay payslip;
     Body.providentFund := Body.providentFund payslip;
     Body.uan := Body.uan payslip;
     Body.esic := Body.esic payslip |}.

(** The table after the request has been stored once. *)
Definition stored : Storage.store :=
  snd (create engine now Storage.empty payslip).

End Sample.

(** ** The listing: GET /api/payslips/all *)

(** One entry of the listing. *)
Module Summary.

Record t : Type := {
  id : Z;
  employeeId : string;
  employeeName : option string;
  monthYear : string;
  monthYearFormatted : string;
  netPay : float;
  createdAt : string
}.

End Summary.

(** [created_at] of [a] is not after [created_at] of [b].  The handler
    writes [created_at] with [toISOString], whose strings are of one fixed
    form, so the order of the times is the order of the strings. *)
Definition not_after (a b : Row.t) : bool :=
  String.leb (Row.created_at a) (Row.created_at b).

(** A row put in its place in rows that are most recent first. *)
Fixpoint place (r : Row.t) (l : list Row.t) : list Row.t :=
  match l with
  | [] => [r]
  | x :: l' => if not_after x r then r :: l else x :: place r l'
  end.

(** SELECT * FROM payslips ORDER BY created_at DESC.  (Rows of one
    [created_at] come in table order here; the engine leaves their order
    open.) *)
Definition select_all_desc (s : Storage.store) : list Row.t :=
  fold_right place [] (Storage.rows s).

Definition summary (payslip : Row.t) : Summary.t :=
  {| Summary.id := Row.id payslip;
     Summary.employeeId := Row.employee_id payslip;
     Summary.employeeName := Row.employee_name payslip;
     Summary.monthYear := Row.month_year payslip;
     Summary.monthYearFormatted := formatMonthYear (Row.month_year payslip);
     Summary.netPay := Row.net_pay payslip;
     Summary.createdAt := Row.created_at payslip |}.

(** [res.json(payslips)]: the status is 200. *)
Definition getAll (s : Storage.store) : nat * list Summary.t :=
  (200, map summary (select_all_desc s)).

(** * What the properties are stated with *)

(** ** Shapes of strings *)

(** The shape the identifier rule describes: the prefix, then three
    digits other than [000]. *)
Definition employee_id_shape (s : string) : Prop :=
  exists ds : string,
    s = ("ATS0" ++ ds)%string /\ String.length ds = 3
    /\ forallb Chars.digit (JsString.chars ds) = true /\ ds <> "000".

(** *** Names: letters and separators *)

Section Separated.

Variable sep : ascii -> bool.

(** One or more words of letters, with exactly one separator between two
    neighbours: no separator in front, none at the end, never two in a
    row. *)
Inductive separated : list ascii -> Prop :=
| separated_word (w : list ascii) :
    w <> [] -> forallb Chars.alpha w = true -> separated w
| separated_more (w : list ascii) (c : ascii) (rest : list ascii) :
    w <> [] -> forallb Chars.alpha w = true -> sep c = true ->
    separated rest -> separated (w ++ c :: rest).

End Separated.

(** The automaton of the name pattern, after a letter has been read. *)
Fixpoint in_word (cs : list ascii) : bool :=
  match cs with
  | [] => true
  | c :: cs' =>
      if Chars.alpha c then in_word cs'
      else if Chars.space c then
        match cs' with
        | a :: cs'' => Chars.alpha a && in_word cs''
        | [] => false
        end
      else false
  end.

Definition name_shape (cs : list ascii) : bool :=
  match cs with
  | a :: cs' => Chars.alpha a && in_word cs'
  | [] => false
  end.

Definition separator_word : regex :=
  Cat (Class Chars.space) (Plus (Class Chars.alpha)).

Definition after_word (st : cursor) : bool :=
  acc (Star (Class Chars.alpha)) (acc (Star separator_word) (acc Eol finish)) st.

(** The rule for names, for a given notion of separator. *)
Definition name_rule (sep : ascii -> bool) (s : string) : Prop :=
  let t := JsString.trim s in
  5 <= String.length t <= 30
  /\ separated sep (JsString.chars t)
  /\ 5 <= count_class Chars.alpha t.

Definition tab : ascii := "009"%char.

Definition hello_tab_world : string := ("Hello" ++ String tab "World")%string.

(** ** Numbers and the calendar *)



(** The number of days of month [m] (1 to 12) of a year. *)
Definition month_length (leap : bool) (m : Z) : Z :=
  match m with
  | 2 => if leap then 29 else 28
  | 4 | 6 | 9 | 11 => 30
  | _ => 31
  end%Z.

(** The last day of month [m] (1 to 12), counted within the year. *)
Definition month_end (leap : bool) (m : Z) : Z :=
  ((if m =? 12 then 365 else JsDate.month_start leap m)
   + (if (m =? 12) && leap then 1 else 0) - 1)%Z.

(** The calendar: a year is a leap year when it is a multiple of 4 and
    not of 100, or a multiple of 400. *)
Definition leap_year (y : Z) : bool :=
  ((y mod 4 =? 0) && negb (y mod 100 =? 0) || (y mod 400 =? 0))%Z.

Definition calendar_days (y m : Z) : Z :=
  month_length (leap_year y) m.

(** A period key [YYYY-MM], with the year and the month it names. *)
Definition key (y1 y2 y3 y4 m1 m2 : ascii) : string :=
  String y1 (String y2 (String y3 (String y4
    (String "-" (String m1 (String m2 "")))))).

Inductive period_key : string -> Z -> Z -> Prop :=
| period_key_intro (y1 y2 y3 y4 m1 m2 : ascii) :
    forallb Chars.digit [y1; y2; y3; y4; m1; m2] = true ->
    period_key (key y1 y2 y3 y4 m1 m2)
      (Numeral.decimal 0 [y1; y2; y3; y4]) (Numeral.decimal 0 [m1; m2]).

(** ** The table *)

(** The business identity of a stored payslip. *)
Definition identity (r : Row.t) : string * string :=
  (Row.employee_id r, Row.month_year r).

(** What the constraints of the table keep true of it: keys are distinct
    and below the next key of the sequence, no two rows have the same
    (employee_id, month_year), and every month_year has the form the
    CHECK asks for. *)
Record wf (s : Storage.store) : Prop := {
  wf_keys : NoDup (map Row.id (Storage.rows s));
  wf_next :
    Forall (fun r => (Row.id r < Storage.next_id s)%Z) (Storage.rows s);
  wf_identity : NoDup (map identity (Storage.rows s));
  wf_period :
    Forall (fun r => test Storage.month_year_regex (Row.month_year r) = true)
      (Storage.rows s)
}.

(** The tables the handlers can produce, starting from the empty one;
    other requests may act between the two statements of a create. *)
Inductive reachable (E : Storage.engine) : Storage.store -> Prop :=
| reachable_empty : reachable E Storage.empty
| reachable_create (between : Storage.store -> Storage.store)
    (now : string) (s : Storage.store) (b : Body.t) :
    reachable E s -> reachable E (between s) ->
    reachable E (snd (create_with E between now s b))
| reachable_delete (s : Storage.store) (i : Z) :
    reachable E s -> reachable E (snd (deleteById s i)).


(** A code unit that stands for itself in a LIKE pattern. *)
Definition plain (c : ascii) : bool :=
  negb (Ascii.eqb c "%") && negb (Ascii.eqb c "_") && negb (Ascii.eqb c "\").

Definition query (e month year : string) : Query.t :=
  {| Query.employeeId := Some e; Query.month := Some month; Query.year := Some year |}.

(** ** More shapes and rules *)

(** The shape of a PAN: five capital letters, four digits, one capital
    letter. *)
Definition pan_shape (s : string) : Prop :=
  exists (letters digits : string) (last : ascii),
    s = (letters ++ digits ++ String last "")%string
    /\ String.length letters = 5
    /\ forallb Chars.upper (JsString.chars letters) = true
    /\ String.length digits = 4
    /\ forallb Chars.digit (JsString.chars digits) = true
    /\ Chars.upper last = true.

Definition digits : list ascii :=
  ["0"; "1"; "2"; "3"; "4"; "5"; "6"; "7"; "8"; "9"]%char.

(** The label of a period key. *)
Definition label (y1 y2 y3 y4 m1 m2 : ascii) : string :=
  (nth (Z.to_nat ((Numeral.decimal 0 [m1; m2] - 1) mod 12)) monthNames ""
   ++ " " ++ String y1 (String y2 (String y3 (String y4 ""))))%string.

(** The rule for a line item: a valid component name, and an amount that
    is a number and not negative. *)
Definition item_ok (item : line_item) : bool :=
  validateComponentName (component item)
  && negb (JsNumber.isNaN (amount item))
  && negb (amount item <? 0)%float.


(** An optional string field: missing, empty, or valid. *)
Definition field_rule (valid : string -> bool) (s : option string) : bool :=
  JsString.falsy s || valid (text s).

(** An optional count of days: missing, zero or not a number, or from 0
    to 31. *)
Definition days_rule (x : option float) : bool :=
  match x with
  | None => true
  | Some f => JsNumber.falsy x || (negb (f <? 0)%float && negb (31 <? f)%float)
  end.

Definition valid_body (b : Body.t) : bool :=
  JsString.truthy (Body.employeeId b) && JsString.truthy (Body.monthYear b)
  && validateEmployeeId (text (Body.employeeId b))
  && field_rule validateAlphabeticWithSpaces (Body.employeeName b)
  && field_rule validateAlphabeticWithSpaces (Body.designation b)
  && field_rule validateAlphabeticWithSpaces (Body.location b)
  && field_rule validateAlphabeticWithSpaces (Body.bankName b)
  && field_rule validatePAN (Body.pan b)
  && field_rule validateBankAccount (Body.accountNo b)
  && days_rule (Body.workingDays b)
  && days_rule (Body.lop b)
  && match Body.earnings b with
     | Some (item :: items) => forallb item_ok (item :: items)
     | _ => false
     end
  && match Body.deductions b with
     | Some items => forallb item_ok items
     | None => false
     end.

(** What the CHECK constraints keep true of the table. *)
Definition checked (E : Storage.engine) (s : Storage.store) : Prop :=
  Forall (fun r => Storage.checks E r = inr tt) (Storage.rows s).

(** An optional column: NULL, or a value the rule accepts. *)
Definition null_or {A : Type} (rule : A -> bool) (x : option A) : Prop :=
  match x with
  | Some a => rule a = true
  | None => True
  end.

(** Most recent first. *)
Definition newer_first (a b : Summary.t) : Prop :=
  String.leb (Summary.createdAt b) (Summary.createdAt a) = true.

(** The number of days the code gives to a period key: the year is read
    by the two-digit rule of [Date], and a month out of 1..12 carries
    into the year. *)
Definition days_of_key (y m : Z) : Z :=
  let yr := if ((0 <=? y) && (y <=? 99))%Z then (1900 + y)%Z else y in
  calendar_days (yr + (m - 1) / 12) ((m - 1) mod 12 + 1).

(** A request with another period. *)
Definition with_period (m : string) (b : Body.t) : Body.t :=
  {| Body.employeeId := Body.employeeId b;
     Body.employeeName := Body.employeeName b;
     Body.designation := Body.designation b;
     Body.dateJoining := Body.dateJoining b;
     Body.monthYear := Some m;
     Body.employeeType := Body.employeeType b;
     Body.location := Body.location b;
     Body.bankName := Body.bankName b;
     Body.accountNo := Body.accountNo b;
     Body.workingDays := Body.workingDays b;
     Body.lop := Body.lop b;
     Body.pan := Body.pan b;
     Body.duration := Body.duration b;
     Body.earnings := Body.earnings b;
     Body.deductions := Body.deductions b;
     Body.grossPay := Body.grossPay b;
     Body.totalDeductions := Body.totalDeductions b;
     Body.netPay := Body.netPay b;
     Body.providentFund := Body.providentFund b;
     Body.uan := Body.uan b;
     Body.esic := Body.esic b |}.

Example validateEmployeeId_ATS0123 : validateEmployeeId "ATS0123" = true.
Proof. reflexivity. Qed.

Example validateEmployeeId_ATS0000 : validateEmployeeId "ATS0000" = false.
Proof. reflexivity. Qed.

Example validateEmployeeId_long : validateEmployeeId "ATS01234" = false.
Proof. reflexivity. Qed.


Example trim_ex1 : JsString.trim "  Hello World  " = "Hello World".
Proof. reflexivity. Qed.

Example split_ex1 : JsString.split "-" "2024-02" = ["2024"; "02"].
Proof. reflexivity. Qed.

Example validateAlphabeticWithSpaces_ex1 : validateAlphabeticWithSpaces "  John Smith " = true.
Proof. reflexivity. Qed.

Example validateAlphabeticWithSpaces_ex2 : validateAlphabeticWithSpaces "a b c" = false.
Proof. reflexivity. Qed.

Example validateAlphabeticWithSpaces_ex3 : validateAlphabeticWithSpaces "John  Smith" = false.
Proof. reflexivity. Qed.

Example validateBankAccount_ex1 : validateBankAccount " 123456789 " = true.
Proof. reflexivity. Qed.

Example validateBankAccount_ex2 : validateBankAccount "12345678" = false.
Proof. reflexivity. Qed.

Example validateBankAccount_ex3 : validateBankAccount "12345678901234567" = false.
Proof. reflexivity. Qed.

Example validatePAN_ex1 : validatePAN "ABCDE1234F" = true.
Proof. reflexivity. Qed.

Example Math_round_ex1 : JsNumber.Math_round 2.5 = 3%float.
Proof. reflexivity. Qed.

Example Math_round_ex2 : JsNumber.Math_round (-2.5) = (-2)%float.
Proof. reflexivity. Qed.

Example Math_round_ex3 : JsNumber.Math_round 0.49999999999999994 = 0%float.
Proof. reflexivity. Qed.

Example Math_round_ex4 : Prim2SF (JsNumber.Math_round (-0.2)) = S754_zero true.
Proof. reflexivity. Qed.

Example Math_round_ex6 : JsNumber.Math_round 0.5 = 1%float.
Proof. reflexivity. Qed.

Example Math_round_ex7 : Prim2SF (JsNumber.Math_round (-0.5)) = S754_zero true.
Proof. reflexivity. Qed.

Example Math_round_ex8 : JsNumber.Math_round (-1.5) = (-1)%float.
Proof. reflexivity. Qed.

Example Math_round_ex5 : JsNumber.Math_round 4503599627370497 = 4503599627370497%float.
Proof. reflexivity. Qed.

Example calculateLOPDeduction_ex1 : calculateLOPDeduction 30000 30 2 = 2000%float.
Proof. reflexivity. Qed.

Example calculateLOPDeduction_ex2 : calculateLOPDeduction 1000 3 1 = 333.33%float.
Proof. reflexivity. Qed.

Example calculateLOPDeduction_ex4 : calculateLOPDeduction 25000 31 3 = 2419.35%float.
Proof. reflexivity. Qed.

Example calculateLOPDeduction_ex5 : calculateLOPDeduction 100 3 2 = 66.67%float.
Proof. reflexivity. Qed.

Example calculateLOPDeduction_ex3 : calculateLOPDeduction 1.065 1 1 = 1.07%float.
Proof. reflexivity. Qed.

Example days_2024_02 : getDaysInMonth "2024-02" = Some 29%Z.
Proof. reflexivity. Qed.

Example days_2023_02 : getDaysInMonth "2023-02" = Some 28%Z.
Proof. reflexivity. Qed.

Example days_2024_04 : getDaysInMonth "2024-04" = Some 30%Z.
Proof. reflexivity. Qed.

Example days_1900_02 : getDaysInMonth "1900-02" = Some 28%Z.
Proof. reflexivity. Qed.

Example days_2000_12 : getDaysInMonth "2000-12" = Some 31%Z.
Proof. reflexivity. Qed.

Example days_0000_02 : getDaysInMonth "0000-02" = Some 28%Z.
Proof. reflexivity. Qed.

Example days_bad : getDaysInMonth "2024" = None.
Proof. reflexivity. Qed.

Example format_2024_01 : formatMonthYear "2024-01" = "January 2024".
Proof. reflexivity. Qed.

Example format_2024_12 : formatMonthYear "2024-12" = "December 2024".
Proof. reflexivity. Qed.

Example format_2024_13 : formatMonthYear "2024-13" = "January 2024".
Proof. reflexivity. Qed.

Example format_2024_00 : formatMonthYear "2024-00" = "December 2024".
Proof. reflexivity. Qed.

Example year_from_day_0 : JsDate.YearFromDay 0 = 1970%Z.
Proof. reflexivity. Qed.

Example year_from_day_m1 : JsDate.YearFromDay (-1) = 1969%Z.
Proof. reflexivity. Qed.

Example year_from_day_big : JsDate.YearFromDay 2932896 = 9999%Z.
Proof. reflexivity. Qed.

Example create_first :
  fst (create Sample.engine Sample.now Storage.empty Sample.payslip)
  = reply 201 (Created 1 "Payslip created successfully").
Proof. reflexivity. Qed.

Example create_first_rows :
  map (fun r => (Row.id r, Row.employee_id r, Row.month_year r, Row.lop r))
    (Storage.rows Sample.stored)
  = [(1%Z, "ATS0123", "2024-01", Some 2%Z)].
Proof. reflexivity. Qed.

Example create_second :
  create Sample.engine Sample.later Sample.stored Sample.payslip
  = (reply 400 (Error duplicate_message), Sample.stored).
Proof. reflexivity. Qed.

Example create_no_deductions_field :
  fst (create Sample.engine Sample.now Storage.empty
         (Sample.body (Some [Sample.basic]) None))
  = reply 500 (Error "Internal server error: deductions is not iterable").
Proof. reflexivity. Qed.

Example create_empty_deductions :
  fst (create Sample.engine Sample.now Storage.empty
         (Sample.body (Some [Sample.basic]) (Some [])))
  = reply 201 (Created 1 "Payslip created successfully").
Proof. reflexivity. Qed.

Example create_empty_earnings :
  fst (create Sample.engine Sample.now Storage.empty
         (Sample.body (Some []) (Some [])))
  = reply 400 (Error "At least one earning is required").
Proof. reflexivity. Qed.

Example get_by_identity_1 :
  status (getByIdentity Sample.stored
    {| Query.employeeId := Some "ATS0123"; Query.month := Some "1";
       Query.year := Some "2024" |}) = 200.
Proof. reflexivity. Qed.

Example get_by_identity_wildcard :
  status (getByIdentity Sample.stored
    {| Query.employeeId := Some "ATS0123"; Query.month := Some "%";
       Query.year := Some "20__" |}) = 200.
Proof. reflexivity. Qed.

Example get_by_identity_absent :
  getByIdentity Sample.stored
    {| Query.employeeId := Some "ATS0123"; Query.month := Some "2";
       Query.year := Some "2024" |} = reply 404 (Error "No payslips found").
Proof. reflexivity. Qed.

Example delete_absent :
  deleteById Sample.stored 7 = (reply 404 (Error "Payslip not found"), Sample.stored).
Proof. reflexivity. Qed.

Example delete_present :
  deleteById Sample.stored 1
  = (reply 200 (Message "Payslip deleted successfully"),
     {| Storage.rows := []; Storage.next_id := 2 |}).
Proof. reflexivity. Qed.

(** * Properties *)

(** ** Reasoning about the matcher *)

Module RegexFacts.

Lemma loop_shorter (r : regex) :
  (forall st st', In st' (run r st) ->
     List.length (snd st') <= List.length (snd st)) ->
  forall fuel st st', In st' (iterate (run r) fuel st) ->
    List.length (snd st') <= List.length (snd st).
Proof.
  intros Hr fuel. induction fuel as [|fuel IH]; intros st st' Hin.
  - destruct Hin as [<-|[]]. lia.
  - cbn [iterate] in Hin. apply in_app_or in Hin. destruct Hin as [Hin|[<-|[]]]; [|lia].
    apply in_flat_map in Hin. destruct Hin as [mid [Hmid Hin]].
    apply filter_In in Hmid. destruct Hmid as [Hmid _].
    apply Hr in Hmid. apply IH in Hin. lia.
Qed.

(** The matcher only moves forward. *)
Lemma run_shorter (r : regex) (st st' : cursor) :
  In st' (run r st) -> List.length (snd st') <= List.length (snd st).
Proof.
  revert st st'.
  induction r as [|c|p|r1 IH1 r2 IH2|r1 IH1 r2 IH2|r IH|r IH| |]; intros st st' Hin.
  - destruct Hin as [<-|[]]. lia.
  - unfold run, step in Hin. destruct st as [i [|x xs]]; [destruct Hin|].
    cbn in Hin. destruct (Ascii.eqb c x); [|destruct Hin].
    destruct Hin as [<-|[]]. cbn. lia.
  - unfold run, step in Hin. destruct st as [i [|x xs]]; [destruct Hin|].
    cbn in Hin. destruct (p x); [|destruct Hin].
    destruct Hin as [<-|[]]. cbn. lia.
  - cbn [run] in Hin. apply in_flat_map in Hin. destruct Hin as [mid [H1 H2]].
    apply IH1 in H1. apply IH2 in H2. lia.
  - cbn [run] in Hin. apply in_app_or in Hin. destruct Hin as [H|H]; auto.
  - cbn [run] in Hin. eapply loop_shorter; eauto.
  - cbn [run] in Hin. destruct (run r st); [|destruct Hin].
    destruct Hin as [<-|[]]. lia.
  - cbn [run] in Hin. destruct (fst st =? 0); [|destruct Hin].
    destruct Hin as [<-|[]]. lia.
  - cbn [run] in Hin. destruct (snd st) eqn:Hrest; [|destruct Hin].
    destruct Hin as [<-|[]]. rewrite Hrest. cbn. lia.
Qed.

Lemma flat_map_ext_in {A B : Type} (f g : A -> list B) (l : list A) :
  (forall a, In a l -> f a = g a) -> flat_map f l = flat_map g l.
Proof.
  induction l as [|a l IH]; intros H; [reflexivity|].
  cbn. rewrite (H a (or_introl eq_refl)), IH; [reflexivity|].
  intros b Hb. apply H. now right.
Qed.

Lemma filter_advanced_nil (r : regex) (st : cursor) :
  List.length (snd st) = 0 -> filter (advanced st) (run r st) = [].
Proof.
  intros Hlen. induction (run r st) as [|st' l IH]; [reflexivity|].
  cbn [filter]. unfold advanced at 1. rewrite Hlen.
  now rewrite (proj2 (Nat.ltb_ge _ 0) (Nat.le_0_l _)).
Qed.

(** Enough fuel is as good as more: an iteration that advances leaves a
    strictly shorter rest. *)
Lemma loop_fuel (r : regex) (n m : nat) (st : cursor) :
  List.length (snd st) <= n -> List.length (snd st) <= m ->
  iterate (run r) n st = iterate (run r) m st.
Proof.
  revert m st. induction n as [|n IH]; intros m st Hn Hm.
  - assert (Hnil := filter_advanced_nil r st ltac:(lia)).
    destruct m as [|m]; [reflexivity|]. cbn [iterate]. now rewrite Hnil.
  - destruct m as [|m].
    + assert (Hnil := filter_advanced_nil r st ltac:(lia)).
      cbn [iterate]. now rewrite Hnil.
    + cbn [iterate]. f_equal. apply flat_map_ext_in.
      intros st' Hin. apply filter_In in Hin. destruct Hin as [_ Hadv].
      unfold advanced in Hadv. apply Nat.ltb_lt in Hadv.
      apply IH; lia.
Qed.

(** [r*] is either one iteration of [r] that advances, then [r*] again, or
    nothing. *)
Lemma run_Star_unfold (r : regex) (st : cursor) :
  run (Star r) st =
  flat_map (run (Star r)) (filter (advanced st) (run r st)) ++ [st].
Proof.
  change (run (Star r) st) with (iterate (run r) (List.length (snd st)) st).
  destruct (List.length (snd st)) as [|n] eqn:Hlen.
  - assert (Hnil := filter_advanced_nil r st ltac:(lia)).
    now rewrite Hnil.
  - cbn [iterate]. f_equal. apply flat_map_ext_in.
    intros st' Hin. apply filter_In in Hin. destruct Hin as [_ Hadv].
    unfold advanced in Hadv. apply Nat.ltb_lt in Hadv.
    cbn [run]. apply loop_fuel; lia.
Qed.

Lemma acc_finish (r : regex) (st : cursor) :
  acc r finish st = match run r st with [] => false | _ :: _ => true end.
Proof. unfold acc. now destruct (run r st). Qed.

Lemma existsb_flat_map {A B : Type} (f : A -> list B) (k : B -> bool) (l : list A) :
  existsb k (flat_map f l) = existsb (fun a => existsb k (f a)) l.
Proof.
  induction l as [|a l IH]; [reflexivity|].
  cbn. now rewrite existsb_app, IH.
Qed.

Lemma existsb_filter {A : Type} (p k : A -> bool) (l : list A) :
  existsb k (filter p l) = existsb (fun a => p a && k a) l.
Proof.
  induction l as [|a l IH]; [reflexivity|].
  cbn. destruct (p a); cbn; now rewrite IH.
Qed.

Lemma acc_Empty (k : cursor -> bool) (st : cursor) : acc Empty k st = k st.
Proof. unfold acc. cbn. apply orb_false_r. Qed.

Lemma acc_Cat (r1 r2 : regex) (k : cursor -> bool) (st : cursor) :
  acc (Cat r1 r2) k st = acc r1 (acc r2 k) st.
Proof. unfold acc. cbn [run]. apply existsb_flat_map. Qed.

Lemma acc_Alt (r1 r2 : regex) (k : cursor -> bool) (st : cursor) :
  acc (Alt r1 r2) k st = acc r1 k st || acc r2 k st.
Proof. unfold acc. cbn [run]. apply existsb_app. Qed.

Lemma acc_Class_cons (p : ascii -> bool) (k : cursor -> bool) (i : nat)
    (c : ascii) (cs : list ascii) :
  acc (Class p) k (i, c :: cs) = p c && k (S i, cs).
Proof. unfold acc. cbn. destruct (p c); cbn; [apply orb_false_r|reflexivity]. Qed.

Lemma acc_Class_nil (p : ascii -> bool) (k : cursor -> bool) (i : nat) :
  acc (Class p) k (i, []) = false.
Proof. reflexivity. Qed.

Lemma acc_Lit_cons (a : ascii) (k : cursor -> bool) (i : nat)
    (c : ascii) (cs : list ascii) :
  acc (Lit a) k (i, c :: cs) = Ascii.eqb a c && k (S i, cs).
Proof. unfold acc. cbn. destruct (Ascii.eqb a c); cbn; [apply orb_false_r|reflexivity]. Qed.

Lemma acc_Lit_nil (a : ascii) (k : cursor -> bool) (i : nat) :
  acc (Lit a) k (i, []) = false.
Proof. reflexivity. Qed.

Lemma acc_NotAhead (r : regex) (k : cursor -> bool) (st : cursor) :
  acc (NotAhead r) k st = negb (acc r finish st) && k st.
Proof.
  rewrite acc_finish. unfold acc. cbn [run].
  destruct (run r st); cbn; [apply orb_false_r|reflexivity].
Qed.

Lemma acc_Eol_cons (k : cursor -> bool) (i : nat) (c : ascii) (cs : list ascii) :
  acc Eol k (i, c :: cs) = false.
Proof. reflexivity. Qed.

Lemma acc_Eol_nil (k : cursor -> bool) (i : nat) :
  acc Eol k (i, []) = k (i, []).
Proof. unfold acc. cbn. apply orb_false_r. Qed.

Lemma acc_Star (r : regex) (k : cursor -> bool) (st : cursor) :
  acc (Star r) k st =
  acc r (fun st' => advanced st st' && acc (Star r) k st') st || k st.
Proof.
  unfold acc at 1. rewrite run_Star_unfold.
  rewrite existsb_app, existsb_flat_map, existsb_filter.
  cbn [existsb]. now rewrite orb_false_r.
Qed.

Lemma acc_ext (r : regex) (k k' : cursor -> bool) (st : cursor) :
  (forall st', k st' = k' st') -> acc r k st = acc r k' st.
Proof.
  intros H. unfold acc. induction (run r st) as [|x l IH]; [reflexivity|].
  cbn. now rewrite H, IH.
Qed.

Lemma run_Bol_later (i : nat) (cs : list ascii) (r : regex) :
  run (Cat Bol r) (S i, cs) = [].
Proof. reflexivity. Qed.

Lemma run_Bol_zero (cs : list ascii) (r : regex) :
  run (Cat Bol r) (0, cs) = run r (0, cs).
Proof. simpl. now rewrite app_nil_r. Qed.

Lemma existsb_later (r : regex) (cs : list ascii) (l : list nat) :
  Forall (fun i => 0 < i) l ->
  existsb (matches_at (Cat Bol r) cs) l = false.
Proof.
  induction 1 as [|i l Hi _ IH]; [reflexivity|].
  simpl. rewrite IH, orb_false_r.
  destruct i as [|i]; [lia|].
  unfold matches_at. now rewrite run_Bol_later.
Qed.

(** A pattern that starts with [^] can only match at offset 0. *)
Lemma test_anchored (r : regex) (s : string) :
  test (Cat Bol r) s = acc r finish (0, list_ascii_of_string s).
Proof.
  rewrite acc_finish.
  unfold test. cbv zeta. rewrite <- cons_seq. cbn [existsb].
  rewrite existsb_later.
  - rewrite orb_false_r. unfold matches_at.
    now rewrite run_Bol_zero.
  - apply Forall_forall. intros i Hi. apply in_seq in Hi. lia.
Qed.

End RegexFacts.

Import RegexFacts.

(** ** The employee identifier *)

Ltac regex_simpl :=
  cbn [Lits Rep UpTo Range Plus list_ascii_of_string Nat.sub];
  repeat first
    [ rewrite acc_Cat | rewrite acc_Empty | rewrite acc_Lit_cons
    | rewrite acc_Lit_nil | rewrite acc_Class_cons | rewrite acc_Class_nil
    | rewrite acc_NotAhead | rewrite acc_Eol_cons | rewrite acc_Eol_nil
    | rewrite acc_Alt ].

Ltac split_andb :=
  repeat match goal with
         | H : _ && _ = true |- _ => apply andb_prop in H; destruct H
         end.

Ltac subst_eqb :=
  repeat match goal with
         | H : Ascii.eqb _ _ = true |- _ => apply Ascii.eqb_eq in H; subst
         end.

Lemma validateEmployeeId_chars (s : string) :
  validateEmployeeId s =
  match list_ascii_of_string s with
  | [a; t; s'; z; d1; d2; d3] =>
      Ascii.eqb "A" a && Ascii.eqb "T" t && Ascii.eqb "S" s' && Ascii.eqb "0" z
      && negb (Ascii.eqb "0" d1 && Ascii.eqb "0" d2 && Ascii.eqb "0" d3)
      && (Chars.digit d1 && Chars.digit d2 && Chars.digit d3)
  | _ => false
  end.
Proof.
  unfold validateEmployeeId, employeeId_regex. rewrite test_anchored.
  destruct (list_ascii_of_string s) as [|c1 [|c2 [|c3 [|c4 [|c5 [|c6 [|c7 [|c8 cs]]]]]]]];
    regex_simpl; unfold finish;
    repeat match goal with |- context [Ascii.eqb ?a ?b] => destruct (Ascii.eqb a b) end;
    repeat match goal with |- context [Chars.digit ?a] => destruct (Chars.digit a) end;
    reflexivity.
Qed.

(** C3: for every string [s], [validateEmployeeId s] is true exactly when
    [s] is the four-character prefix [ATS0] followed by exactly three
    digits that are not the sequence [000]; it is false of [ATS0000] and
    of every string of another shape. *)
Theorem validateEmployeeId_iff (s : string) :
  validateEmployeeId s = true <-> employee_id_shape s.
Proof.
  rewrite validateEmployeeId_chars. unfold employee_id_shape. split.
  - destruct s as [|c1 [|c2 [|c3 [|c4 [|c5 [|c6 [|c7 [|c8 s]]]]]]]];
      cbn [list_ascii_of_string]; try discriminate.
    intros H. split_andb. subst_eqb.
    exists (String c5 (String c6 (String c7 ""))).
    repeat split.
    + unfold JsString.chars. cbn [list_ascii_of_string forallb].
      repeat match goal with
                  | H : Chars.digit _ = true |- _ => rewrite H; clear H
                  end. reflexivity.
    + intros Heq. injection Heq as -> -> ->.
      match goal with H : negb _ = true |- _ => discriminate H end.
  - intros [ds [-> [Hlen [Hdig Hne]]]].
    destruct ds as [|d1 [|d2 [|d3 [|d4 ds]]]]; try discriminate.
    unfold JsString.chars in Hdig.
    cbn [list_ascii_of_string forallb] in Hdig.
    cbn [append list_ascii_of_string].
    change (Ascii.eqb "A" "A") with true. change (Ascii.eqb "T" "T") with true.
    change (Ascii.eqb "S" "S") with true. change (Ascii.eqb "0" "0") with true.
    split_andb.
    repeat match goal with
           | H : Chars.digit _ = true |- _ => rewrite H; clear H
           end.
    cbn [andb]. rewrite andb_true_r.
    apply negb_true_iff. apply not_true_is_false. intros Hz.
    split_andb. subst_eqb. now apply Hne.
Qed.

(** ** Names: letters and separators *)

Section SeparatedFacts.

Variable sep : ascii -> bool.


Lemma separated_chars (cs : list ascii) :
  separated sep cs -> forallb (fun c => Chars.alpha c || sep c) cs = true.
Proof.
  induction 1 as [w _ Hw|w c rest _ Hw Hc _ IH].
  - rewrite forallb_forall in *. intros c Hc. now rewrite (Hw c Hc).
  - rewrite forallb_app. cbn [forallb]. rewrite Hc, IH, orb_true_r.
    rewrite andb_true_r. rewrite forallb_forall in *. intros x Hx.
    now rewrite (Hw x Hx).
Qed.

End SeparatedFacts.



Lemma alpha_not_space (c : ascii) : Chars.alpha c = true -> Chars.space c = false.
Proof.
  destruct c as [[] [] [] [] [] [] [] []]; vm_compute; congruence.
Qed.

Lemma acc_ext_in (r : regex) (k k' : cursor -> bool) (st : cursor) :
  (forall st', In st' (run r st) -> k st' = k' st') -> acc r k st = acc r k' st.
Proof.
  unfold acc. induction (run r st) as [|x l IH]; intros H; [reflexivity|].
  cbn. rewrite (H x (or_introl eq_refl)), IH; [reflexivity|].
  intros y Hy. apply H. now right.
Qed.

(** A guard that asks for progress already made is always passed. *)
Lemma acc_advanced (r : regex) (k : cursor -> bool) (st0 st : cursor) :
  List.length (snd st) < List.length (snd st0) ->
  acc r (fun st' => advanced st0 st' && k st') st = acc r k st.
Proof.
  intros Hlt. apply acc_ext_in. intros st' Hin.
  apply run_shorter in Hin. unfold advanced.
  now rewrite (proj2 (Nat.ltb_lt _ _)) by lia.
Qed.

Lemma acc_Star_nil (r : regex) (k : cursor -> bool) (i : nat) :
  acc (Star r) k (i, []) = k (i, []).
Proof.
  unfold acc. rewrite run_Star_unfold, filter_advanced_nil by reflexivity.
  cbn. apply orb_false_r.
Qed.

Lemma acc_Star_Class_cons (p : ascii -> bool) (k : cursor -> bool) (i : nat)
    (c : ascii) (cs : list ascii) :
  acc (Star (Class p)) k (i, c :: cs) =
  p c && acc (Star (Class p)) k (S i, cs) || k (i, c :: cs).
Proof.
  rewrite acc_Star, acc_Class_cons. unfold advanced. cbn [snd List.length].
  now rewrite (proj2 (Nat.ltb_lt _ _)) by lia.
Qed.

Lemma after_word_nil (i : nat) : after_word (i, []) = true.
Proof.
  unfold after_word. rewrite !acc_Star_nil. reflexivity.
Qed.

Lemma after_word_cons (i : nat) (c : ascii) (cs : list ascii) :
  after_word (i, c :: cs) =
  Chars.alpha c && after_word (S i, cs)
  || Chars.space c
     && match cs with
        | a :: cs' => Chars.alpha a && after_word (S (S i), cs')
        | [] => false
        end.
Proof.
  unfold after_word at 1. rewrite acc_Star_Class_cons. f_equal.
  rewrite acc_Star, acc_Eol_cons, orb_false_r.
  unfold separator_word at 1. unfold Plus. rewrite !acc_Cat, acc_Class_cons.
  f_equal. destruct cs as [|a cs']; [reflexivity|].
  rewrite acc_Cat, acc_Class_cons. f_equal.
  unfold after_word. apply acc_advanced. cbn. lia.
Qed.

Lemma after_word_in_word (n : nat) :
  forall (cs : list ascii) (i : nat),
    List.length cs <= n -> after_word (i, cs) = in_word cs.
Proof.
  induction n as [|n IH]; intros cs i Hlen.
  - destruct cs; [|cbn in Hlen; lia]. apply after_word_nil.
  - destruct cs as [|c cs]; [apply after_word_nil|].
    cbn [List.length] in Hlen. rewrite after_word_cons. cbn [in_word].
    rewrite IH by lia.
    destruct (Chars.alpha c) eqn:Ha.
    + rewrite (alpha_not_space c Ha). cbn. apply orb_false_r.
    + cbn [andb orb]. destruct (Chars.space c); [|reflexivity].
      cbn [andb]. destruct cs as [|a cs']; [reflexivity|].
      cbn [List.length] in Hlen. now rewrite IH by lia.
Qed.

Lemma alphabetic_regex_shape (s : string) :
  test alphabetic_regex s = name_shape (JsString.chars s).
Proof.
  unfold alphabetic_regex. rewrite test_anchored. unfold JsString.chars.
  unfold Plus. rewrite !acc_Cat.
  destruct (list_ascii_of_string s) as [|a cs]; [reflexivity|].
  rewrite acc_Class_cons. cbn [name_shape]. f_equal.
  rewrite <- (@after_word_in_word (List.length cs) cs 1 (le_n _)).
  unfold after_word, separator_word, Plus. apply acc_ext. intros st.
  now rewrite acc_Cat.
Qed.

Lemma in_word_letters (w : list ascii) :
  forallb Chars.alpha w = true -> in_word w = true.
Proof.
  induction w as [|c w IH]; [reflexivity|].
  cbn [forallb in_word]. intros H. apply andb_prop in H. destruct H as [Hc Hw].
  rewrite Hc. auto.
Qed.

Lemma in_word_app (w rest : list ascii) :
  forallb Chars.alpha w = true -> in_word (w ++ rest) = in_word rest.
Proof.
  induction w as [|c w IH]; [reflexivity|].
  cbn [forallb in_word app]. intros H. apply andb_prop in H. destruct H as [Hc Hw].
  rewrite Hc. auto.
Qed.

Lemma separated_name_shape (cs : list ascii) :
  separated Chars.space cs -> name_shape cs = true.
Proof.
  induction 1 as [w Hne Hw|w c rest Hne Hw Hc _ IH].
  - destruct w as [|a w]; [congruence|].
    cbn [forallb name_shape] in *. apply andb_prop in Hw. destruct Hw as [Ha Hw].
    now rewrite Ha, in_word_letters.
  - destruct w as [|a w]; [congruence|].
    cbn [forallb name_shape app] in *. apply andb_prop in Hw. destruct Hw as [Ha Hw].
    rewrite Ha, in_word_app by assumption. cbn [andb in_word].
    destruct (Chars.alpha c) eqn:Hac.
    + apply alpha_not_space in Hac. congruence.
    + rewrite Hc. destruct rest as [|b rest]; [discriminate IH|exact IH].
Qed.

Lemma in_word_separated (n : nat) :
  forall (cs w : list ascii),
    List.length cs <= n -> w <> [] -> forallb Chars.alpha w = true ->
    in_word cs = true -> separated Chars.space (w ++ cs).
Proof.
  induction n as [|n IH]; intros cs w Hlen Hne Hw Hcs.
  - destruct cs; [|cbn in Hlen; lia]. rewrite app_nil_r. now constructor.
  - destruct cs as [|c cs].
    + rewrite app_nil_r. now constructor.
    + cbn [List.length in_word] in *. destruct (Chars.alpha c) eqn:Hac.
      * replace (w ++ c :: cs) with ((w ++ [c]) ++ cs) by now rewrite <- app_assoc.
        apply IH; [lia| |now rewrite forallb_app, Hw; cbn; rewrite Hac|assumption].
        intros Heq. now apply app_eq_nil in Heq.
      * destruct (Chars.space c) eqn:Hsc; [|discriminate].
        destruct cs as [|a cs]; [discriminate|].
        apply andb_prop in Hcs. destruct Hcs as [Ha Hcs].
        apply separated_more; try assumption.
        apply (IH cs [a]); cbn [List.length] in *;
          [lia|discriminate|now cbn; rewrite Ha|assumption].
Qed.

Lemma name_shape_separated (cs : list ascii) :
  name_shape cs = true <-> separated Chars.space cs.
Proof.
  split; [|apply separated_name_shape].
  destruct cs as [|a cs]; [discriminate|]. cbn [name_shape].
  intros H. apply andb_prop in H. destruct H as [Ha Hcs].
  apply (@in_word_separated (List.length cs) cs [a]);
    [lia|discriminate|now cbn; rewrite Ha|assumption].
Qed.

(** Trimming removes no letter. *)
Lemma filter_alpha_drop_while (cs : list ascii) :
  filter Chars.alpha (JsString.drop_while Chars.space cs) = filter Chars.alpha cs.
Proof.
  induction cs as [|c cs IH]; [reflexivity|].
  cbn [JsString.drop_while]. destruct (Chars.space c) eqn:Hs; [|reflexivity].
  rewrite IH. cbn [filter]. destruct (Chars.alpha c) eqn:Ha; [|reflexivity].
  apply alpha_not_space in Ha. congruence.
Qed.

Lemma chars_of_chars (cs : list ascii) : JsString.chars (JsString.of_chars cs) = cs.
Proof. apply list_ascii_of_string_of_list_ascii. Qed.

Lemma count_alpha_trim (s : string) :
  count_class Chars.alpha (JsString.trim s) = count_class Chars.alpha s.
Proof.
  unfold count_class, JsString.trim.
  change (list_ascii_of_string (JsString.of_chars ?l)) with (JsString.chars (JsString.of_chars l)).
  rewrite chars_of_chars. unfold JsString.trim_chars.
  rewrite filter_rev, length_rev, filter_alpha_drop_while.
  rewrite filter_rev, length_rev, filter_alpha_drop_while.
  reflexivity.
Qed.

(** C4, as the code has it: for every string [s],
    [validateAlphabeticWithSpaces s] is true exactly when the trimmed form
    of [s] has a length from 5 to 30, is made of words of letters with
    exactly one white space character (any character of [\s]: a space, a
    tab, a line break ...) between two words, none in front and none at
    the end, and holds at least 5 letters. *)
Theorem validateAlphabeticWithSpaces_iff (s : string) :
  validateAlphabeticWithSpaces s = true <-> name_rule Chars.space s.
Proof.
  unfold validateAlphabeticWithSpaces, name_rule. cbv zeta.
  rewrite alphabetic_regex_shape, count_alpha_trim.
  rewrite !andb_true_iff, !Nat.leb_le, name_shape_separated. tauto.
Qed.

(** C4 as the specification words it fails: a tab between two words is accepted,
    and a tab is not a space. *)
Lemma validateAlphabeticWithSpaces_accepts_tab :
  validateAlphabeticWithSpaces hello_tab_world = true
  /\ ~ name_rule (Ascii.eqb " ") hello_tab_world.
Proof.
  split; [reflexivity|].
  intros [_ [Hsep _]]. apply separated_chars in Hsep. discriminate Hsep.
Qed.

(** ** The loss-of-pay deduction *)

(** [nearest] is the rounding of [Math.round]: the result is within a half
    of the value, the upper half excluded. *)
Lemma nearest_half (num k : Z) :
  (0 <= k)%Z ->
  ((2 * JsNumber.nearest num k - 1) * 2 ^ k <= 2 * num
   < (2 * JsNumber.nearest num k + 1) * 2 ^ k)%Z.
Proof.
  intros Hk. unfold JsNumber.nearest.
  rewrite Z.pow_add_r, Z.pow_1_r by lia.
  assert (Hpos : (0 < 2 ^ k)%Z) by (apply Z.pow_pos_nonneg; lia).
  generalize dependent (2 ^ k)%Z. intros d Hd.
  pose proof (Z.div_mod (2 * num + d) (d * 2) ltac:(lia)) as Hdiv.
  pose proof (Z.mod_pos_bound (2 * num + d) (d * 2) ltac:(lia)) as Hmod.
  nia.
Qed.


(** ** Day arithmetic *)

Module DateFacts.

Import JsDate.
Local Open Scope Z_scope.

Lemma DaysInYear_cases (y : Z) : DaysInYear y = 365 \/ DaysInYear y = 366.
Proof. unfold DaysInYear. destruct (InLeapYear y); auto. Qed.

Lemma DayFromYear_succ (y : Z) :
  DayFromYear (y + 1) = DayFromYear y + DaysInYear y.
Proof.
  unfold DayFromYear, DaysInYear, InLeapYear.
  destruct (y mod 4 =? 0) eqn:H4; destruct (y mod 100 =? 0) eqn:H100;
    destruct (y mod 400 =? 0) eqn:H400; cbn [andb orb negb];
    rewrite ?Z.eqb_eq, ?Z.eqb_neq in *;
    Z.div_mod_to_equations; lia.
Qed.

Lemma DayFromYear_lt (y y' : Z) : y < y' -> DayFromYear y < DayFromYear y'.
Proof.
  unfold DayFromYear. intros H. Z.div_mod_to_equations. lia.
Qed.

Lemma DayFromYear_le (y y' : Z) : y <= y' -> DayFromYear y <= DayFromYear y'.
Proof.
  intros H. destruct (Z.eq_dec y y') as [->|]; [lia|].
  apply Z.lt_le_incl, DayFromYear_lt. lia.
Qed.

Lemma climb_spec (fuel : nat) :
  forall y0 d y,
    y0 <= y -> y - y0 <= Z.of_nat fuel ->
    DayFromYear y <= d < DayFromYear (y + 1) ->
    climb fuel y0 d = y.
Proof.
  induction fuel as [|fuel IH]; intros y0 d y Hle Hfuel Hd.
  - cbn. lia.
  - cbn [climb]. destruct (DayFromYear (y0 + 1) <=? d) eqn:Hnext.
    + apply Z.leb_le in Hnext.
      assert (y0 < y).
      { destruct (Z.eq_dec y0 y) as [->|]; lia. }
      apply IH; lia.
    + apply Z.leb_gt in Hnext.
      destruct (Z.eq_dec y0 y) as [|Hne]; [assumption|].
      assert (Hmono := @DayFromYear_le (y0 + 1) y ltac:(lia)). lia.
Qed.

(** [YearFromDay] is the year the day falls in. *)
Lemma YearFromDay_spec (d y : Z) :
  DayFromYear y <= d < DayFromYear (y + 1) -> YearFromDay d = y.
Proof.
  intros Hd. unfold YearFromDay. apply climb_spec; [| |assumption].
  - unfold DayFromYear in Hd. destruct (d <? 0) eqn:Hneg;
      rewrite ?Z.ltb_lt, ?Z.ltb_ge in Hneg; Z.div_mod_to_equations; lia.
  - rewrite Z2Nat.id by (Z.div_mod_to_equations; lia).
    unfold DayFromYear in Hd. destruct (d <? 0) eqn:Hneg;
      rewrite ?Z.ltb_lt, ?Z.ltb_ge in Hneg; Z.div_mod_to_equations; lia.
Qed.

Lemma YearFromDay_within (yr w : Z) :
  0 <= w < DaysInYear yr -> YearFromDay (DayFromYear yr + w) = yr.
Proof.
  intros Hw. apply YearFromDay_spec. rewrite DayFromYear_succ. lia.
Qed.

Ltac month_cases m :=
  let H := fresh "Hcases" in
  assert (H : m = 1 \/ m = 2 \/ m = 3 \/ m = 4 \/ m = 5 \/ m = 6 \/ m = 7
              \/ m = 8 \/ m = 9 \/ m = 10 \/ m = 11 \/ m = 12) by lia;
  destruct H as [->|[->|[->|[->|[->|[->|[->|[->|[->|[->|[->| ->]]]]]]]]]]].

Lemma MakeDay_last (yr m : Z) :
  1 <= m <= 12 ->
  MakeDay yr m 0 = DayFromYear yr + month_end (InLeapYear yr) m.
Proof.
  intros Hm. unfold MakeDay, month_end. month_cases m.
  12: { change (12 / 12) with 1. change (12 mod 12) with 0.
        rewrite DayFromYear_succ. unfold DaysInYear.
        destruct (InLeapYear yr); cbn; lia. }
  all: match goal with
       | |- context [DayFromYear (_ + ?k / 12)] =>
           change (k / 12) with 0; change (k mod 12) with k
       end; rewrite !Z.add_0_r;
       match goal with
       | |- context [DayFromYear ?y] => generalize (DayFromYear y); intros D
       end;
       match goal with
       | |- context [InLeapYear ?y] => destruct (InLeapYear y)
       end; cbn; lia.
Qed.

Lemma month_end_range (yr m : Z) :
  1 <= m <= 12 -> 0 <= month_end (InLeapYear yr) m < DaysInYear yr.
Proof.
  intros Hm. unfold month_end, DaysInYear.
  month_cases m; destruct (InLeapYear yr); cbn; lia.
Qed.

(** Day 0 of the month after month [m] is the last day of month [m]. *)
Lemma last_day_of_month (yr m : Z) :
  1 <= m <= 12 ->
  DateFromDay (MakeDay yr m 0) = month_length (InLeapYear yr) m.
Proof.
  intros Hm. rewrite MakeDay_last by assumption.
  unfold DateFromDay, MonthFromDay, DayWithinYear, leap_day.
  rewrite (@YearFromDay_within yr _ (@month_end_range yr m Hm)).
  replace (DayFromYear yr + month_end (InLeapYear yr) m - DayFromYear yr)
    with (month_end (InLeapYear yr) m) by lia.
  unfold month_end.
  month_cases m; destruct (InLeapYear yr); reflexivity.
Qed.

End DateFacts.

(** ** Days in a period *)

Lemma digit_not_dash (c : ascii) : Chars.digit c = true -> Ascii.eqb c "-" = false.
Proof.
  destruct c as [[] [] [] [] [] [] [] []]; vm_compute; congruence.
Qed.

Lemma digit_not_space (c : ascii) : Chars.digit c = true -> Chars.space c = false.
Proof.
  destruct c as [[] [] [] [] [] [] [] []]; vm_compute; congruence.
Qed.

Lemma digit_value_range (c : ascii) :
  Chars.digit c = true -> (0 <= Numeral.digit_value c <= 9)%Z.
Proof.
  destruct c as [[] [] [] [] [] [] [] []]; vm_compute; intuition congruence.
Qed.

Lemma leap_year_InLeapYear (y : Z) : JsDate.InLeapYear y = leap_year y.
Proof.
  unfold JsDate.InLeapYear, leap_year.
  destruct (y mod 4 =? 0)%Z eqn:H4; destruct (y mod 100 =? 0)%Z eqn:H100;
    destruct (y mod 400 =? 0)%Z eqn:H400; try reflexivity;
    rewrite ?Z.eqb_eq, ?Z.eqb_neq in *; exfalso;
    Z.div_mod_to_equations; lia.
Qed.

(** A year from 1 to 99 is read as a year of the twentieth century, which
    has the same leap years. *)
Lemma leap_year_two_digits (y : Z) :
  (1 <= y <= 99)%Z -> leap_year (1900 + y) = leap_year y.
Proof.
  intros Hy. unfold leap_year.
  assert (H4 : ((1900 + y) mod 4 = y mod 4)%Z) by (Z.div_mod_to_equations; lia).
  assert (H100 : ((1900 + y) mod 100 <> 0 /\ y mod 100 <> 0)%Z)
    by (Z.div_mod_to_equations; lia).
  assert (H400 : ((1900 + y) mod 400 <> 0 /\ y mod 400 <> 0)%Z)
    by (Z.div_mod_to_equations; lia).
  rewrite H4.
  destruct H100 as [Ha Hb], H400 as [Hc Hd].
  apply Z.eqb_neq in Ha, Hb, Hc, Hd. now rewrite Ha, Hb, Hc, Hd.
Qed.

Lemma split_chars_plain (sep : ascii) (cs : list ascii) :
  forallb (fun c => negb (Ascii.eqb c sep)) cs = true ->
  JsString.split_chars sep cs = [cs].
Proof.
  induction cs as [|c cs IH]; [reflexivity|].
  cbn [forallb JsString.split_chars]. intros H.
  apply andb_prop in H. destruct H as [Hc Hcs].
  apply negb_true_iff in Hc. now rewrite Hc, IH.
Qed.

Lemma split_chars_app (sep : ascii) (a b : list ascii) :
  forallb (fun c => negb (Ascii.eqb c sep)) a = true ->
  JsString.split_chars sep (a ++ sep :: b) = a :: JsString.split_chars sep b.
Proof.
  induction a as [|c a IH]; intros H.
  - cbn [app JsString.split_chars]. now rewrite Ascii.eqb_refl.
  - cbn [forallb] in H. apply andb_prop in H. destruct H as [Hc Ha].
    apply negb_true_iff in Hc.
    cbn [app JsString.split_chars]. now rewrite Hc, IH.
Qed.

Lemma digits_no_dash (cs : list ascii) :
  forallb Chars.digit cs = true ->
  forallb (fun c => negb (Ascii.eqb c "-")) cs = true.
Proof.
  rewrite !forallb_forall. intros H c Hc.
  now rewrite (digit_not_dash c (H c Hc)).
Qed.

Lemma drop_while_digits (cs : list ascii) :
  forallb Chars.digit cs = true -> JsString.drop_while Chars.space cs = cs.
Proof.
  destruct cs as [|c cs]; [reflexivity|].
  cbn [forallb JsString.drop_while]. intros H.
  apply andb_prop in H. destruct H as [Hc _].
  now rewrite (digit_not_space c Hc).
Qed.

Lemma trim_chars_digits (cs : list ascii) :
  forallb Chars.digit cs = true -> JsString.trim_chars cs = cs.
Proof.
  intros H. unfold JsString.trim_chars.
  rewrite (drop_while_digits cs H), drop_while_digits, rev_involutive;
    [reflexivity|].
  rewrite forallb_forall in *. intros c Hc. apply H. now apply in_rev.
Qed.

Lemma Number_digits (cs : list ascii) :
  forallb Chars.digit cs = true ->
  Numeral.Number (JsString.of_chars cs) = Some (Numeral.decimal 0 cs).
Proof.
  intros H. unfold Numeral.Number.
  rewrite chars_of_chars, trim_chars_digits by assumption. now rewrite H.
Qed.

(** What the code reads in a period key: the two numbers. *)
Lemma getDaysInMonth_key (y1 y2 y3 y4 m1 m2 : ascii) :
  forallb Chars.digit [y1; y2; y3; y4; m1; m2] = true ->
  getDaysInMonth (key y1 y2 y3 y4 m1 m2) =
  JsDate.getDate
    (JsDate.make (Some (Numeral.decimal 0 [y1; y2; y3; y4]))
       (Some (Numeral.decimal 0 [m1; m2])) 0).
Proof.
  intros H.
  assert (Hy : forallb Chars.digit [y1; y2; y3; y4] = true).
  { cbn [forallb] in *. split_andb.
    repeat match goal with H : Chars.digit _ = true |- _ => rewrite H; clear H end.
    reflexivity. }
  assert (Hm : forallb Chars.digit [m1; m2] = true).
  { cbn [forallb] in *. split_andb.
    repeat match goal with H : Chars.digit _ = true |- _ => rewrite H; clear H end.
    reflexivity. }
  unfold getDaysInMonth, JsString.split.
  change (JsString.chars (key y1 y2 y3 y4 m1 m2))
    with ([y1; y2; y3; y4] ++ "-"%char :: [m1; m2]).
  rewrite split_chars_app by now apply digits_no_dash.
  rewrite split_chars_plain by now apply digits_no_dash.
  cbn [map nth_error]. now rewrite !Number_digits by assumption.
Qed.

Lemma year_range (y1 y2 y3 y4 : ascii) :
  forallb Chars.digit [y1; y2; y3; y4] = true ->
  (0 <= Numeral.decimal 0 [y1; y2; y3; y4] <= 9999)%Z.
Proof.
  intros H. cbn [forallb] in H. split_andb.
  repeat match goal with
         | H : Chars.digit _ = true |- _ => apply digit_value_range in H
         end.
  cbn [Numeral.decimal]. lia.
Qed.

Lemma DayFromYear_range (yr : Z) :
  (1 <= yr <= 9999)%Z ->
  (-1000000 <= JsDate.DayFromYear yr <= 3000000)%Z.
Proof.
  intros H. unfold JsDate.DayFromYear. Z.div_mod_to_equations. lia.
Qed.

(** C6, as the code has it: for every period key [YYYY-MM] with a month
    from 01 to 12 and a year from 0001 to 9999, [getDaysInMonth] is the
    number of days the calendar gives to that month of that year, leap
    years included. *)
Theorem getDaysInMonth_calendar (s : string) (y m : Z) :
  period_key s y m -> (1 <= m <= 12)%Z -> (1 <= y)%Z ->
  getDaysInMonth s = Some (calendar_days y m).
Proof.
  intros Hkey Hm Hy. destruct Hkey as [y1 y2 y3 y4 m1 m2 Hdigits].
  rewrite getDaysInMonth_key by assumption.
  assert (Hrange : (0 <= Numeral.decimal 0 [y1; y2; y3; y4] <= 9999)%Z).
  { apply year_range. cbn [forallb] in *. split_andb.
    repeat match goal with H : Chars.digit _ = true |- _ => rewrite H; clear H end.
    reflexivity. }
  set (y := Numeral.decimal 0 [y1; y2; y3; y4]) in *.
  set (m := Numeral.decimal 0 [m1; m2]) in *.
  unfold JsDate.make, JsDate.getDate, calendar_days.
  set (yr := if ((0 <=? y) && (y <=? 99))%Z then (1900 + y)%Z else y).
  assert (Hyr : (1 <= yr <= 9999)%Z /\ leap_year yr = leap_year y).
  { subst yr. destruct ((0 <=? y) && (y <=? 99))%Z eqn:Htwo.
    - apply andb_prop in Htwo. destruct Htwo as [_ Hle]. apply Z.leb_le in Hle.
      split; [lia|]. apply leap_year_two_digits. lia.
    - split; [lia|reflexivity]. }
  destruct Hyr as [Hyr Hleap].
  assert (Hday := @DateFacts.MakeDay_last yr m Hm).
  assert (Hend := @DateFacts.month_end_range yr m Hm).
  assert (Hstart := @DayFromYear_range yr Hyr).
  assert (Hclip : (Z.abs (JsDate.MakeDay yr m 0) <=? 100000000)%Z = true).
  { apply Z.leb_le. rewrite Hday.
    destruct (DateFacts.DaysInYear_cases yr); lia. }
  rewrite Hclip. cbn [option_map].
  now rewrite DateFacts.last_day_of_month, leap_year_InLeapYear, Hleap.
Qed.

Lemma getDaysInMonth_calendar_witness :
  getDaysInMonth "2024-02" = Some 29%Z
  /\ getDaysInMonth "2023-02" = Some 28%Z
  /\ getDaysInMonth "2024-04" = Some 30%Z.
Proof.
  split; [|split].
  - exact (@getDaysInMonth_calendar "2024-02" 2024 2
             (period_key_intro "2" "0" "2" "4" "0" "2" eq_refl)
             ltac:(lia) ltac:(lia)).
  - exact (@getDaysInMonth_calendar "2023-02" 2023 2
             (period_key_intro "2" "0" "2" "3" "0" "2" eq_refl)
             ltac:(lia) ltac:(lia)).
  - exact (@getDaysInMonth_calendar "2024-04" 2024 4
             (period_key_intro "2" "0" "2" "4" "0" "4" eq_refl)
             ltac:(lia) ltac:(lia)).
Defined.

(** C6 as the specification words it fails for the year 0000: it is a leap year of
    the calendar, and the code answers as for 1900, which is not. *)
Lemma getDaysInMonth_year_0000 :
  period_key "0000-02" 0 2
  /\ getDaysInMonth "0000-02" = Some 28%Z
  /\ calendar_days 0 2 = 29%Z
  /\ getDaysInMonth "0000-02" <> Some (calendar_days 0 2).
Proof.
  assert (Hcode : getDaysInMonth "0000-02" = Some 28%Z) by reflexivity.
  assert (Hcalendar : calendar_days 0 2 = 29%Z) by reflexivity.
  split; [|split; [|split]]; try assumption.
  - exact (period_key_intro "0" "0" "0" "0" "0" "2" eq_refl).
  - rewrite Hcode, Hcalendar. intros H. discriminate H.
Qed.

(** ** The create handler *)

Lemma same_identity_iff (e m : string) (r : Row.t) :
  Storage.same_identity e m r = true <-> identity r = (e, m).
Proof.
  unfold Storage.same_identity, identity.
  rewrite andb_true_iff, !String.eqb_eq. split.
  - intros [-> ->]. reflexivity.
  - intros H. now inversion H.
Qed.

Lemma select_identity_In (s : Storage.store) (e m : string) :
  In (e, m) (map identity (Storage.rows s)) ->
  exists r l, Storage.select_identity s e m = r :: l.
Proof.
  intros H. apply in_map_iff in H. destruct H as [r [Hr Hin]].
  assert (Hsel : In r (Storage.select_identity s e m)).
  { apply filter_In. split; [assumption|]. now apply same_identity_iff. }
  destruct (Storage.select_identity s e m) as [|r' l]; [destruct Hsel|eauto].
Qed.

Lemma select_identity_nil (s : Storage.store) (e m : string) :
  ~ In (e, m) (map identity (Storage.rows s)) ->
  Storage.select_identity s e m = [].
Proof.
  intros H. unfold Storage.select_identity.
  induction (Storage.rows s) as [|r l IH]; [reflexivity|].
  cbn [filter]. destruct (Storage.same_identity e m r) eqn:Hr.
  - exfalso. apply H. left. now apply same_identity_iff.
  - apply IH. intros Hin. apply H. now right.
Qed.

(** A check that stops a request answers 400. *)
Lemma check_items_400 (kind : string) (items : list line_item) (r : response) :
  check_items kind items = Some r ->
  exists message, r = reply 400 (Error message) /\ message <> duplicate_message.
Proof.
  induction items as [|item items IH]; [discriminate|].
  cbn [check_items].
  destruct (negb (validateComponentName (component item))).
  - intros [= <-]. eexists. split; [reflexivity|].
    unfold duplicate_message. cbn. intros H. destruct kind; discriminate H.
  - destruct (JsNumber.isNaN (amount item) || (amount item <? 0)%float).
    + intros [= <-]. eexists. split; [reflexivity|].
      unfold duplicate_message. cbn. intros H. destruct kind; discriminate H.
    + exact IH.
Qed.

Lemma validate_fields_400 (b : Body.t) (r : response) :
  validate_fields b = Some r ->
  exists message, r = reply 400 (Error message) /\ message <> duplicate_message.
Proof.
  unfold validate_fields, bad_request.
  repeat match goal with
         | |- context [if ?c then _ else _] => destruct c
         end;
    intros [= <-]; eexists; (split; [reflexivity|discriminate]).
Qed.

Lemma validate_earnings_400 (b : Body.t) (r : response) :
  validate_earnings b = Some r ->
  exists message, r = reply 400 (Error message) /\ message <> duplicate_message.
Proof.
  unfold validate_earnings, bad_request.
  destruct (Body.earnings b) as [[|item items]|].
  - intros [= <-]. eexists. split; [reflexivity|discriminate].
  - apply check_items_400.
  - intros [= <-]. eexists. split; [reflexivity|discriminate].
Qed.

(** What a request stopped by the validation is answered: a rejection
    with status 400, or the 500 of the exception. *)
Lemma validation_stops (b : Body.t) (o : outcome) :
  validation b = Some o ->
  (exists message, caught o = reply 400 (Error message)
                   /\ message <> duplicate_message)
  \/ (Body.deductions b = None
      /\ caught o = reply 500 (Error ("Internal server error: "
                                        ++ not_iterable "deductions")%string)).
Proof.
  unfold validation.
  destruct (validate_fields b) as [r|] eqn:Hf.
  { intros [= <-]. left. now apply validate_fields_400 with (b := b). }
  destruct (validate_earnings b) as [r|] eqn:He.
  { intros [= <-]. left. now apply validate_earnings_400 with (b := b). }
  unfold validate_deductions. destruct (Body.deductions b) as [items|].
  - destruct (check_items "deduction" items) as [r|] eqn:Hd; [|discriminate].
    intros [= <-]. left. now apply check_items_400 with (kind := "deduction") (items := items).
  - intros [= <-]. right. split; reflexivity.
Qed.

Lemma create_with_stopped (E : Storage.engine) (between : Storage.store -> Storage.store)
    (now : string) (s : Storage.store) (b : Body.t) (o : outcome) :
  validation b = Some o -> create_with E between now s b = (caught o, s).
Proof. intros H. unfold create_with, create_body. now rewrite H. Qed.

Lemma create_with_passed (E : Storage.engine) (between : Storage.store -> Storage.store)
    (now : string) (s : Storage.store) (b : Body.t) :
  validation b = None ->
  create_with E between now s b =
  (caught (fst (create_statements E between now s b)),
   snd (create_statements E between now s b)).
Proof.
  intros H. unfold create_with, create_body. rewrite H.
  now destruct (create_statements E between now s b).
Qed.

(** C1: whatever the table holds, a create request for an (employeeId,
    monthYear) pair that a stored payslip already has is answered by the
    duplicate look-up with the Duplicate error, and the table is left as
    it was: no second row is stored.  On the whole handler the same holds
    of every request that passes the validation before the look-up, and no
    request for a stored pair is ever created. *)
Theorem create_duplicate (E : Storage.engine)
    (between : Storage.store -> Storage.store) (now : string)
    (s : Storage.store) (b : Body.t) (e m : string) :
  Body.employeeId b = Some e -> Body.monthYear b = Some m ->
  In (e, m) (map identity (Storage.rows s)) ->
  create_statements E between now s b
  = (Sent (reply 400 (Error duplicate_message)), s)
  /\ (validation b = None ->
      create_with E between now s b = (reply 400 (Error duplicate_message), s))
  /\ snd (create_with E between now s b) = s
  /\ status (fst (create_with E between now s b)) <> 201.
Proof.
  intros He Hm Hin.
  assert (Hdup : create_statements E between now s b
                 = (Sent (reply 400 (Error duplicate_message)), s)).
  { unfold create_statements. rewrite He, Hm. cbn [text].
    destruct (select_identity_In s e m Hin) as [r [l ->]]. reflexivity. }
  split; [exact Hdup|].
  destruct (validation b) as [o|] eqn:Hv.
  - rewrite (create_with_stopped E between now s b Hv).
    split; [discriminate|]. split; [reflexivity|].
    destruct (validation_stops b Hv) as [[message [-> _]]|[_ ->]]; discriminate.
  - rewrite (create_with_passed E between now s b Hv), Hdup.
    split; [reflexivity|]. split; [reflexivity|discriminate].
Qed.

(** Creating a payslip for (ATS0123, 2024-01) twice: the first call
    stores it, the second fails with the Duplicate error. *)
Lemma create_duplicate_witness :
  fst (create Sample.engine Sample.now Storage.empty Sample.payslip)
  = reply 201 (Created 1 "Payslip created successfully")
  /\ create Sample.engine Sample.later Sample.stored Sample.payslip
     = (reply 400 (Error duplicate_message), Sample.stored).
Proof.
  split; [reflexivity|].
  refine (proj1 (proj2 (@create_duplicate Sample.engine (fun s => s) Sample.later
                          Sample.stored Sample.payslip "ATS0123" "2024-01"
                          eq_refl eq_refl _)) eq_refl).
  left. reflexivity.
Defined.

(** An insert that the storage rejects is answered 500, whatever the
    rejection, the uniqueness constraint included. *)
Lemma create_insert_rejected (E : Storage.engine)
    (between : Storage.store -> Storage.store) (now : string)
    (s : Storage.store) (b : Body.t) (err : Storage.error) :
  validation b = None ->
  Storage.select_identity s (text (Body.employeeId b)) (text (Body.monthYear b)) = [] ->
  Storage.insert E (between s) (insert_values b now) = inl err ->
  create_with E between now s b
  = (reply 500 (Error ("Internal server error: " ++ Storage.message E err)%string),
     Storage.rejected E (between s) err).
Proof.
  intros Hv Hsel Hins. rewrite (create_with_passed E between now s b Hv).
  unfold create_statements. now rewrite Hsel, Hins.
Qed.

(** C2, at the failing input: the table is empty when the request for
    (ATS0123, 2024-01) looks for a duplicate, another request stores that
    pair before the insert, the insert is rejected by the uniqueness
    constraint, and the answer is the generic 500, not the Duplicate
    error. *)
Lemma create_lost_race :
  validation Sample.payslip = None
  /\ Storage.select_identity Storage.empty "ATS0123" "2024-01" = []
  /\ Storage.insert Sample.engine Sample.stored
       (insert_values Sample.payslip Sample.later)
     = inl (Storage.UniqueViolation "unique_employee_month_year")
  /\ create_with Sample.engine (fun _ => Sample.stored) Sample.later
       Storage.empty Sample.payslip
     = (reply 500
          (Error "Internal server error: duplicate key value violates unique constraint unique_employee_month_year"),
        {| Storage.rows := Storage.rows Sample.stored; Storage.next_id := 3 |})
  /\ reply 500
       (Error "Internal server error: duplicate key value violates unique constraint unique_employee_month_year")
     <> reply 400 (Error duplicate_message).
Proof.
  repeat split; try reflexivity. discriminate.
Qed.

(** The same answer can be had without a second request: a period key
    with a space after it is not equal to the stored key for the look-up,
    and is cut to it by VARCHAR(7) in the insert. *)
Lemma create_padded_period :
  Storage.select_identity Sample.stored "ATS0123" "2024-01 " = []
  /\ create Sample.engine Sample.later Sample.stored Sample.padded
     = (reply 500
          (Error "Internal server error: duplicate key value violates unique constraint unique_employee_month_year"),
        {| Storage.rows := Storage.rows Sample.stored; Storage.next_id := 3 |}).
Proof. split; reflexivity. Qed.


(** C10: a create request without the deductions field that passes the
    checks of the fields and of the earnings is not rejected for its
    deductions: the loop over the missing collection throws, and the
    answer is the generic 500; nothing is stored.  No request without the
    field is created: a created request has a deductions array, which may
    be empty. *)
Theorem create_without_deductions (E : Storage.engine)
    (between : Storage.store -> Storage.store) (now : string)
    (s : Storage.store) (b : Body.t) :
  Body.deductions b = None ->
  (validate_fields b = None -> validate_earnings b = None ->
   create_with E between now s b
   = (reply 500 (Error "Internal server error: deductions is not iterable"), s))
  /\ status (fst (create_with E between now s b)) <> 201
  /\ snd (create_with E between now s b) = s.
Proof.
  intros Hd.
  assert (Hv : exists o, validation b = Some o).
  { unfold validation, validate_deductions. rewrite Hd.
    destruct (validate_fields b); [eauto|].
    destruct (validate_earnings b); eauto. }
  destruct Hv as [o Hv]. rewrite (create_with_stopped E between now s b Hv).
  split; [|split; [|reflexivity]].
  - intros Hf He. unfold validation, validate_deductions in Hv.
    rewrite Hf, He, Hd in Hv. injection Hv as <-. reflexivity.
  - destruct (validation_stops b Hv) as [[message [-> _]]|[_ ->]]; discriminate.
Qed.

Lemma create_without_deductions_witness :
  create Sample.engine Sample.now Storage.empty
    (Sample.body (Some [Sample.basic]) None)
  = (reply 500 (Error "Internal server error: deductions is not iterable"),
     Storage.empty).
Proof.
  exact (proj1 (@create_without_deductions Sample.engine (fun s => s) Sample.now
                  Storage.empty (Sample.body (Some [Sample.basic]) None) eq_refl)
           eq_refl eq_refl).
Defined.

(** ** The table and its constraints *)

Module StorageFacts.

Import Storage.

Lemma wf_empty : wf empty.
Proof. split; cbn; constructor. Qed.

Lemma to_row_id (E : engine) (i : Z) (v : values) (r : Row.t) :
  to_row E i v = inr r -> Row.id r = i.
Proof.
  unfold to_row.
  repeat match goal with
         | |- match ?e with inl _ => _ | inr _ => _ end = _ -> _ =>
             destruct e; [discriminate|]
         end.
  intros [= <-]. reflexivity.
Qed.

Lemma checks_period (E : engine) (r : Row.t) :
  checks E r = inr tt -> test month_year_regex (Row.month_year r) = true.
Proof.
  unfold checks, ensure.
  destruct (test employeeId_regex (Row.employee_id r)); [|discriminate].
  destruct (check_opt (date_joining_check E) (Row.date_joining r)); [|discriminate].
  destruct (test month_year_regex (Row.month_year r)); [reflexivity|discriminate].
Qed.

(** What a successful insert did. *)
Lemma insert_inr (E : engine) (s s' : store) (v : values) (i : Z) :
  insert E s v = inr (s', i) ->
  exists r,
    Row.id r = next_id s /\ i = next_id s
    /\ test month_year_regex (Row.month_year r) = true
    /\ ~ In (identity r) (map identity (rows s))
    /\ s' = {| rows := rows s ++ [r]; next_id := (next_id s + 1)%Z |}.
Proof.
  unfold insert.
  destruct (to_row E (next_id s) v) as [|r] eqn:Hrow; [discriminate|].
  destruct (checks E r) as [|[]] eqn:Hchecks; [discriminate|].
  unfold unique.
  destruct (existsb _ (rows s)) eqn:Hex; [discriminate|].
  intros [= <- <-]. exists r.
  pose proof (to_row_id E _ v Hrow) as Hid.
  repeat split; try assumption.
  - now apply checks_period with (E := E).
  - intros Hin. apply in_map_iff in Hin. destruct Hin as [r' [Heq Hin]].
    assert (Htrue : existsb (same_identity (Row.employee_id r) (Row.month_year r))
                      (rows s) = true).
    { apply existsb_exists. exists r'. split; [assumption|].
      now apply same_identity_iff. }
    congruence.
Qed.

(** The constraints are kept by an insert ... *)
Lemma wf_insert (E : engine) (s s' : store) (v : values) (i : Z) :
  wf s -> insert E s v = inr (s', i) -> wf s'.
Proof.
  intros [Hkeys Hnext Hident Hperiod] Hins.
  destruct (insert_inr E s v Hins) as [r [Hid [_ [Hp [Hnew ->]]]]].
  split; cbn [rows next_id].
  - rewrite map_app. cbn [map]. apply NoDup_app; [assumption|repeat constructor; auto| ].
    intros k Hk [<-|[]]. apply in_map_iff in Hk. destruct Hk as [r' [Heq Hin]].
    rewrite Forall_forall in Hnext. specialize (Hnext r' Hin). lia.
  - apply Forall_app. split.
    + eapply Forall_impl; [|exact Hnext]. cbn. intros. lia.
    + repeat constructor. lia.
  - rewrite map_app. cbn [map]. apply NoDup_app; [assumption|repeat constructor; auto| ].
    intros k Hk [<-|[]]. contradiction.
  - apply Forall_app. split; [assumption|]. now repeat constructor.
Qed.

(** ... by an insert that is rejected ... *)
Lemma wf_rejected (E : engine) (s : store) (err : error) :
  wf s -> wf (rejected E s err).
Proof.
  intros [Hkeys Hnext Hident Hperiod]. unfold rejected.
  destruct (uses_key E err); split; cbn [rows next_id]; try assumption.
  eapply Forall_impl; [|exact Hnext]. cbn. intros. lia.
Qed.

(** Selecting rows keeps a column free of repetitions. *)
Lemma NoDup_map_filter (A B : Type) (column : A -> B) (keep : A -> bool) :
  forall l : list A,
    NoDup (map column l) -> NoDup (map column (filter keep l)).
Proof.
  intros l. induction l as [|a l IH]; cbn [map filter]; [trivial|].
  intros H. inversion H as [|? ? Hnotin Hrest]; subst.
  destruct (keep a); [|auto]. cbn [map]. constructor; [|auto].
  intros Hin. apply Hnotin. apply in_map_iff in Hin. destruct Hin as [x [Hx Hin]].
  apply filter_In in Hin. apply in_map_iff. exists x. tauto.
Qed.

Lemma Forall_filter {A : Type} (P : A -> Prop) (p : A -> bool) (l : list A) :
  Forall P l -> Forall P (filter p l).
Proof.
  rewrite !Forall_forall. intros H x Hx. apply filter_In in Hx. apply H. tauto.
Qed.

(** ... and by a delete. *)
Lemma wf_delete (s : store) (i : Z) : wf s -> wf (fst (delete_id s i)).
Proof.
  intros [Hkeys Hnext Hident Hperiod]. split; cbn [delete_id fst rows next_id].
  - now apply NoDup_map_filter.
  - now apply Forall_filter.
  - now apply NoDup_map_filter.
  - now apply Forall_filter.
Qed.

End StorageFacts.

Import StorageFacts.

(** Every handler keeps the constraints of the table. *)
Lemma create_with_wf (E : Storage.engine)
    (between : Storage.store -> Storage.store) (now : string)
    (s : Storage.store) (b : Body.t) :
  wf s -> wf (between s) -> wf (snd (create_with E between now s b)).
Proof.
  intros Hs Hbetween. unfold create_with, create_body.
  destruct (validation b); [exact Hs|].
  unfold create_statements.
  destruct (0 <? _); [exact Hs|].
  destruct (Storage.insert E (between s) (insert_values b now)) as [|[s' i]] eqn:Hins;
    [now apply wf_rejected|].
  now apply wf_insert with (E := E) (s := between s) (v := insert_values b now) (i := i).
Qed.

Lemma deleteById_wf (s : Storage.store) (i : Z) :
  wf s -> wf (snd (deleteById s i)).
Proof.
  intros Hs. unfold deleteById.
  pose proof (wf_delete i Hs) as Hd.
  destruct (Storage.delete_id s i) as [s' n]. cbn [fst] in Hd.
  now destruct (n =? 0).
Qed.

(** So every table the handlers can produce satisfies its constraints. *)
Lemma reachable_wf (E : Storage.engine) (s : Storage.store) :
  reachable E s -> wf s.
Proof.
  induction 1 as [|between now s b _ IHs _ IHb|s i _ IH].
  - exact wf_empty.
  - now apply create_with_wf.
  - now apply deleteById_wf.
Qed.

(** ** The delete by key *)

Lemma filter_all {A : Type} (p : A -> bool) (l : list A) :
  (forall a, In a l -> p a = true) -> filter p l = l.
Proof.
  induction l as [|a l IH]; intros H; [reflexivity|].
  cbn [filter]. rewrite (H a (or_introl eq_refl)), IH; [reflexivity|].
  intros x Hx. apply H. now right.
Qed.

Lemma filter_none {A : Type} (p : A -> bool) (l : list A) :
  (forall a, In a l -> p a = false) -> filter p l = [].
Proof.
  induction l as [|a l IH]; intros H; [reflexivity|].
  cbn [filter]. rewrite (H a (or_introl eq_refl)), IH; [reflexivity|].
  intros x Hx. apply H. now right.
Qed.



(** ** The read by identity *)

Lemma like_plain (c : ascii) (p subject : list ascii) :
  plain c = true ->
  Storage.like (c :: p) subject =
  match subject with
  | [] => false
  | x :: subject' => Ascii.eqb x c && Storage.like p subject'
  end.
Proof.
  destruct c as [[] [] [] [] [] [] [] []]; intros H;
    try discriminate H; reflexivity.
Qed.

Lemma like_percent (subject : list ascii) : Storage.like ["%"%char] subject = true.
Proof.
  induction subject as [|x subject IH]; [reflexivity|].
  cbn in *. exact IH.
Qed.


(** The stored period keys: four digits, a dash, two digits. *)
Lemma month_year_regex_chars (s : string) :
  test Storage.month_year_regex s =
  match list_ascii_of_string s with
  | [d1; d2; d3; d4; dash; d5; d6] =>
      Chars.digit d1 && Chars.digit d2 && Chars.digit d3 && Chars.digit d4
      && Ascii.eqb "-" dash && Chars.digit d5 && Chars.digit d6
  | _ => false
  end.
Proof.
  unfold Storage.month_year_regex. rewrite test_anchored.
  destruct (list_ascii_of_string s) as [|c1 [|c2 [|c3 [|c4 [|c5 [|c6 [|c7 [|c8 cs]]]]]]]];
    regex_simpl; unfold finish;
    repeat match goal with |- context [Chars.digit ?a] => destruct (Chars.digit a) end;
    repeat match goal with |- context [Ascii.eqb ?a ?b] => destruct (Ascii.eqb a b) end;
    reflexivity.
Qed.

Lemma chars_append (a b : string) :
  JsString.chars (a ++ b)%string = JsString.chars a ++ JsString.chars b.
Proof.
  unfold JsString.chars. induction a as [|c a IH]; [reflexivity|].
  cbn. now rewrite IH.
Qed.


Lemma chars_length (a : string) : List.length (JsString.chars a) = String.length a.
Proof.
  unfold JsString.chars. induction a as [|c a IH]; [reflexivity|].
  cbn. now rewrite IH.
Qed.





(** Digits are plain: a numeric year and month hold no wildcard. *)
Lemma digits_plain (cs : list ascii) :
  forallb Chars.digit cs = true -> forallb plain cs = true.
Proof.
  rewrite !forallb_forall. intros H c Hc. specialize (H c Hc). revert H.
  destruct c as [[] [] [] [] [] [] [] []]; vm_compute; congruence.
Qed.




Lemma wf_stored : wf Sample.stored.
Proof.
  exact (@create_with_wf Sample.engine (fun s => s) Sample.now Storage.empty
           Sample.payslip wf_empty wf_empty).
Qed.


(** ** Counted repetitions of a class *)

(** [p{n}] reads [n] code units of the class, or fails. *)
Lemma acc_Rep_Class (p : ascii -> bool) (k : cursor -> bool) (n : nat) :
  forall (i : nat) (cs : list ascii),
    acc (Rep n (Class p)) k (i, cs) =
    (n <=? List.length cs) && forallb p (firstn n cs) && k (n + i, skipn n cs).
Proof.
  induction n as [|n IH]; intros i cs.
  - cbn [Rep]. rewrite acc_Empty. reflexivity.
  - cbn [Rep]. rewrite acc_Cat. destruct cs as [|c cs].
    + rewrite acc_Class_nil. reflexivity.
    + rewrite acc_Class_cons, IH. cbn [List.length firstn skipn forallb Nat.leb].
      replace (n + S i) with (S n + i) by lia.
      destruct (p c), (n <=? List.length cs), (forallb p (firstn n cs)); reflexivity.
Qed.

(** [p{0,n}$] reads what is left, if it is at most [n] code units of the
    class. *)
Lemma acc_UpTo_Class_Eol (p : ascii -> bool) (n : nat) :
  forall (i : nat) (cs : list ascii),
    acc (UpTo n (Class p)) (acc Eol finish) (i, cs) =
    (List.length cs <=? n) && forallb p cs.
Proof.
  induction n as [|n IH]; intros i cs.
  - cbn [UpTo]. rewrite acc_Empty. destruct cs; reflexivity.
  - cbn [UpTo]. rewrite acc_Alt, acc_Cat, acc_Empty. destruct cs as [|c cs].
    + rewrite acc_Class_nil, acc_Eol_nil. reflexivity.
    + rewrite acc_Class_cons, acc_Eol_cons, IH, orb_false_r.
      cbn [List.length forallb Nat.leb].
      destruct (p c), (List.length cs <=? n); reflexivity.
Qed.

(** ** The PAN and the bank account *)

Lemma validatePAN_chars (s : string) :
  validatePAN s =
  let cs := JsString.chars s in
  (List.length cs =? 10)
  && forallb Chars.upper (firstn 5 cs)
  && forallb Chars.digit (firstn 4 (skipn 5 cs))
  && forallb Chars.upper (skipn 9 cs).
Proof.
  unfold validatePAN, pan_regex. rewrite test_anchored. cbv zeta.
  unfold JsString.chars. set (cs := list_ascii_of_string s).
  rewrite acc_Cat, acc_Rep_Class, acc_Cat, acc_Rep_Class, acc_Cat.
  rewrite skipn_skipn. cbn [Nat.add].
  destruct (Nat.eqb_spec (List.length cs) 10) as [Hlen|Hlen].
  - do 11 (destruct cs as [|? cs]; try discriminate Hlen).
    cbn [List.length Nat.leb firstn skipn forallb andb].
    rewrite acc_Class_cons, acc_Eol_nil. unfold finish.
    now rewrite !andb_assoc.
  - cbn [andb].
    destruct (5 <=? List.length cs) eqn:H5; [|reflexivity].
    destruct (forallb Chars.upper (firstn 5 cs)); [|reflexivity].
    cbn [andb]. rewrite length_skipn.
    destruct (4 <=? List.length cs - 5) eqn:H4; [|reflexivity].
    destruct (forallb Chars.digit (firstn 4 (skipn 5 cs))); [|reflexivity].
    cbn [andb]. apply Nat.leb_le in H5, H4.
    destruct (skipn 9 cs) as [|c [|c' rest]] eqn:Hrest.
    + now rewrite acc_Class_nil.
    + exfalso. apply Hlen. assert (H := length_skipn 9 cs). rewrite Hrest in H.
      cbn in H. lia.
    + rewrite acc_Class_cons, acc_Eol_cons. apply andb_false_r.
Qed.

(** X1: [validatePAN] is true exactly of five capital letters, four
    digits and one capital letter. *)
Theorem validatePAN_iff (s : string) :
  validatePAN s = true <-> pan_shape s.
Proof.
  rewrite validatePAN_chars. cbv zeta. unfold pan_shape, JsString.chars. split.
  - intros H. split_andb.
    match goal with H : (_ =? 10) = true |- _ => apply Nat.eqb_eq in H; rename H into Hlen end.
    do 11 (destruct s as [|? s]; try discriminate Hlen).
    cbn [list_ascii_of_string firstn skipn forallb] in *. split_andb.
    exists (String a (String a0 (String a1 (String a2 (String a3 ""))))),
           (String a4 (String a5 (String a6 (String a7 "")))), a8.
    cbn [append String.length list_ascii_of_string forallb].
    repeat match goal with H : _ = true |- _ => rewrite H; clear H end.
    repeat split.
  - intros [letters [digits [last [-> [Hl [Hlu [Hd [Hdd Hu]]]]]]]].
    do 6 (destruct letters as [|? letters]; try discriminate Hl).
    do 5 (destruct digits as [|? digits]; try discriminate Hd).
    cbn [append list_ascii_of_string firstn skipn forallb List.length] in *.
    split_andb.
    repeat match goal with H : _ = true |- _ => rewrite H; clear H end.
    reflexivity.
Qed.

Lemma account_regex_chars (s : string) :
  test account_regex s =
  let cs := JsString.chars s in
  (9 <=? List.length cs) && (List.length cs <=? 16) && forallb Chars.digit cs.
Proof.
  unfold account_regex, Range. rewrite test_anchored. cbv zeta.
  unfold JsString.chars. set (cs := list_ascii_of_string s).
  rewrite !acc_Cat, acc_Rep_Class.
  change (16 - 9) with 7.
  rewrite acc_UpTo_Class_Eol, length_skipn.
  assert (Hall : forallb Chars.digit cs
                 = forallb Chars.digit (firstn 9 cs)
                   && forallb Chars.digit (skipn 9 cs))
    by now rewrite <- forallb_app, firstn_skipn.
  rewrite Hall.
  destruct (9 <=? List.length cs) eqn:H9; [|reflexivity].
  apply Nat.leb_le in H9.
  replace (List.length cs - 9 <=? 7) with (List.length cs <=? 16).
  - cbn [andb]. destruct (forallb Chars.digit (firstn 9 cs)),
      (List.length cs <=? 16), (forallb Chars.digit (skipn 9 cs)); reflexivity.
  - destruct (Nat.leb_spec (List.length cs) 16), (Nat.leb_spec (List.length cs - 9) 7);
      try reflexivity; lia.
Qed.

(** X2: [validateBankAccount] is true exactly when the trimmed value is
    9 to 16 code units, all digits. *)
Theorem validateBankAccount_iff (account : string) :
  validateBankAccount account = true
  <-> 9 <= String.length (JsString.trim account) <= 16
      /\ forallb Chars.digit (JsString.chars (JsString.trim account)) = true.
Proof.
  unfold validateBankAccount. rewrite account_regex_chars. cbv zeta.
  rewrite chars_length, !andb_true_iff, !Nat.leb_le. tauto.
Qed.

(** ** Trimming *)









(** ** The period label *)

Module LabelFacts.

Import JsDate.
Local Open Scope Z_scope.

Lemma month_start_range (yr mn : Z) :
  0 <= mn <= 11 -> 0 <= month_start (InLeapYear yr) mn < DaysInYear yr.
Proof.
  intros H. unfold DaysInYear, month_start.
  assert (Hc : mn = 0 \/ mn = 1 \/ mn = 2 \/ mn = 3 \/ mn = 4 \/ mn = 5 \/ mn = 6
               \/ mn = 7 \/ mn = 8 \/ mn = 9 \/ mn = 10 \/ mn = 11) by lia.
  destruct Hc as [->|[->|[->|[->|[->|[->|[->|[->|[->|[->|[->| ->]]]]]]]]]]];
    destruct (InLeapYear yr); cbn; lia.
Qed.

(** The first day of a month is in that month. *)
Lemma MonthFromDay_first (yr mn : Z) :
  0 <= mn <= 11 ->
  MonthFromDay (DayFromYear yr + month_start (InLeapYear yr) mn) = mn.
Proof.
  intros H. unfold MonthFromDay, DayWithinYear, leap_day.
  rewrite (@DateFacts.YearFromDay_within yr _ (@month_start_range yr mn H)).
  replace (DayFromYear yr + month_start (InLeapYear yr) mn - DayFromYear yr)
    with (month_start (InLeapYear yr) mn) by lia.
  unfold month_start.
  assert (Hc : mn = 0 \/ mn = 1 \/ mn = 2 \/ mn = 3 \/ mn = 4 \/ mn = 5 \/ mn = 6
               \/ mn = 7 \/ mn = 8 \/ mn = 9 \/ mn = 10 \/ mn = 11) by lia.
  destruct Hc as [->|[->|[->|[->|[->|[->|[->|[->|[->|[->|[->| ->]]]]]]]]]]];
    destruct (InLeapYear yr); reflexivity.
Qed.

(** The month of [new Date(year, month)] is the month index brought into
    0..11; what it carries goes to the year. *)
Lemma getMonth_make (y mo : Z) :
  0 <= y <= 9999 -> -1 <= mo <= 98 ->
  getMonth (make (Some y) (Some mo) 1) = Some (mo mod 12).
Proof.
  intros Hy Hmo. unfold getMonth, make.
  set (yr := if (0 <=? y) && (y <=? 99) then 1900 + y else y).
  assert (Hyr : 0 <= yr <= 9999).
  { subst yr. destruct ((0 <=? y) && (y <=? 99)) eqn:Htwo; [|lia].
    apply andb_prop in Htwo. destruct Htwo as [_ Hle]. apply Z.leb_le in Hle. lia. }
  unfold MakeDay.
  set (ym := yr + mo / 12). set (mn := mo mod 12).
  assert (Hmn : 0 <= mn <= 11) by (subst mn; Z.div_mod_to_equations; lia).
  assert (Hym : -1 <= ym <= 10008) by (subst ym; Z.div_mod_to_equations; lia).
  replace (DayFromYear ym + month_start (InLeapYear ym) mn + 1 - 1)
    with (DayFromYear ym + month_start (InLeapYear ym) mn) by lia.
  assert (Hclip : (Z.abs (DayFromYear ym + month_start (InLeapYear ym) mn)
                   <=? 100000000) = true).
  { apply Z.leb_le. pose proof (@month_start_range ym mn Hmn) as Hs.
    destruct (DateFacts.DaysInYear_cases ym);
      unfold DayFromYear; Z.div_mod_to_equations; lia. }
  rewrite Hclip. cbn [option_map]. now rewrite MonthFromDay_first.
Qed.

End LabelFacts.

Lemma digit_in_digits (c : ascii) : Chars.digit c = true -> In c digits.
Proof.
  destruct c as [[] [] [] [] [] [] [] []]; vm_compute; intros H;
    try discriminate H; tauto.
Qed.

(** [parseInt] of two digits is their value. *)
Lemma parseInt_two_digits (m1 m2 : ascii) :
  Chars.digit m1 = true -> Chars.digit m2 = true ->
  Numeral.parseInt (String m1 (String m2 "")) = Some (Numeral.decimal 0 [m1; m2]).
Proof.
  intros H1 H2. apply digit_in_digits in H1, H2. cbn [digits In] in H1, H2.
  repeat (destruct H1 as [<-|H1]; [|]); try contradiction;
    repeat (destruct H2 as [<-|H2]; [|]); try contradiction; reflexivity.
Qed.

(** X4: the label of a period key [YYYY-MM] is the name of month
    [(MM - 1) mod 12] of the table, a space, and the year as it is written:
    the month of the key for 01 to 12, and a month out of range wraps round
    without changing the year. *)
Theorem formatMonthYear_key (y1 y2 y3 y4 m1 m2 : ascii) :
  forallb Chars.digit [y1; y2; y3; y4; m1; m2] = true ->
  formatMonthYear (key y1 y2 y3 y4 m1 m2) = label y1 y2 y3 y4 m1 m2.
Proof.
  intros H.
  assert (Hy : forallb Chars.digit [y1; y2; y3; y4] = true).
  { cbn [forallb] in *. split_andb.
    repeat match goal with H : Chars.digit _ = true |- _ => rewrite H; clear H end.
    reflexivity. }
  assert (Hm1 : Chars.digit m1 = true) by (cbn [forallb] in H; now split_andb).
  assert (Hm2 : Chars.digit m2 = true) by (cbn [forallb] in H; now split_andb).
  assert (Hm : forallb Chars.digit [m1; m2] = true)
    by (cbn [forallb]; now rewrite Hm1, Hm2).
  unfold formatMonthYear, label.
  change (String.length (key y1 y2 y3 y4 m1 m2) =? 0) with false. cbv iota.
  unfold JsString.split.
  change (JsString.chars (key y1 y2 y3 y4 m1 m2))
    with ([y1; y2; y3; y4] ++ "-"%char :: [m1; m2]).
  rewrite split_chars_app by now apply digits_no_dash.
  rewrite split_chars_plain by now apply digits_no_dash.
  cbn [map nth_error Numeral.NumberOpt Numeral.parseIntOpt].
  rewrite Number_digits by assumption.
  change (JsString.of_chars [m1; m2]) with (String m1 (String m2 "")).
  rewrite parseInt_two_digits by assumption. cbn [option_map].
  pose proof (year_range _ _ _ _ Hy) as Hyear.
  assert (Hmonth : (0 <= Numeral.decimal 0 [m1; m2] <= 99)%Z).
  { apply digit_value_range in Hm1, Hm2. cbn [Numeral.decimal]. lia. }
  rewrite LabelFacts.getMonth_make by lia.
  set (i := Z.to_nat ((Numeral.decimal 0 [m1; m2] - 1) mod 12)).
  assert (Hi : i < 12).
  { subst i. pose proof (Z.mod_pos_bound (Numeral.decimal 0 [m1; m2] - 1) 12 ltac:(lia)).
    lia. }
  rewrite (nth_indep monthNames "undefined" "") by exact Hi.
  reflexivity.
Qed.

Lemma formatMonthYear_key_witness :
  formatMonthYear "2024-01" = "January 2024"
  /\ formatMonthYear "2024-13" = "January 2024"
  /\ formatMonthYear "2024-00" = "December 2024".
Proof.
  split; [|split].
  - exact (@formatMonthYear_key "2" "0" "2" "4" "0" "1" eq_refl).
  - exact (@formatMonthYear_key "2" "0" "2" "4" "1" "3" eq_refl).
  - exact (@formatMonthYear_key "2" "0" "2" "4" "0" "0" eq_refl).
Defined.


(** ** Line items *)

Lemma check_items_none (kind : string) (items : list line_item) :
  check_items kind items = None <-> forallb item_ok items = true.
Proof.
  induction items as [|item items IH]; [cbn; tauto|].
  cbn [check_items forallb]. unfold item_ok at 1.
  destruct (validateComponentName (component item)); cbn [negb andb];
    [|split; discriminate].
  destruct (JsNumber.isNaN (amount item)); cbn [negb andb orb];
    [split; discriminate|].
  destruct (amount item <? 0)%float; cbn [negb andb]; [split; discriminate|].
  exact IH.
Qed.



(** ** What the validation asks of a request *)

Lemma present_and_not_rule (valid : string -> bool) (s : option string) :
  present_and_not valid s = negb (field_rule valid s).
Proof.
  unfold present_and_not, field_rule, JsString.truthy.
  now destruct (JsString.falsy s), (valid (text s)).
Qed.

Lemma present_and_outside_rule (x : option float) :
  present_and_outside_0_31 x = negb (days_rule x).
Proof.
  unfold present_and_outside_0_31, days_rule, JsNumber.truthy.
  destruct x as [f|]; [|reflexivity].
  unfold JsNumber.falsy.
  destruct (JsNumber.isNaN f) eqn:Hnan; [now rewrite orb_true_r|].
  rewrite orb_false_r. cbn [orb].
  now destruct (JsNumber.is_zero f), (f <? 0)%float, (31 <? f)%float.
Qed.

Lemma validate_fields_none (b : Body.t) :
  validate_fields b = None
  <-> JsString.truthy (Body.employeeId b) && JsString.truthy (Body.monthYear b)
      && validateEmployeeId (text (Body.employeeId b))
      && field_rule validateAlphabeticWithSpaces (Body.employeeName b)
      && field_rule validateAlphabeticWithSpaces (Body.designation b)
      && field_rule validateAlphabeticWithSpaces (Body.location b)
      && field_rule validateAlphabeticWithSpaces (Body.bankName b)
      && field_rule validatePAN (Body.pan b)
      && field_rule validateBankAccount (Body.accountNo b)
      && days_rule (Body.workingDays b)
      && days_rule (Body.lop b) = true.
Proof.
  unfold validate_fields, bad_request, JsString.truthy.
  rewrite !present_and_not_rule, !present_and_outside_rule.
  destruct (JsString.falsy (Body.employeeId b)); [cbn; split; discriminate|].
  destruct (JsString.falsy (Body.monthYear b)); [cbn; split; discriminate|].
  cbn [orb negb andb].
  repeat match goal with
         | |- context [if negb ?c then _ else _] =>
             destruct c; cbn [negb andb];
             [|rewrite ?andb_false_r; split; discriminate]
         end.
  tauto.
Qed.

Lemma validation_valid (b : Body.t) :
  validation b = None <-> valid_body b = true.
Proof.
  unfold validation, valid_body.
  destruct (validate_fields b) as [r|] eqn:Hf.
  - split; [discriminate|]. intros H.
    assert (Hnone : validate_fields b = None).
    { apply validate_fields_none. now split_andb;
        repeat match goal with H : _ = true |- _ => rewrite H end. }
    congruence.
  - apply validate_fields_none in Hf. rewrite Hf. cbn [andb].
    unfold validate_earnings, validate_deductions, bad_request.
    destruct (Body.earnings b) as [[|item items]|];
      [split; discriminate| |split; discriminate].
    destruct (check_items "earning" (item :: items)) as [r|] eqn:He.
    + split; [discriminate|]. intros H. apply andb_prop in H. destruct H as [H _].
      apply (check_items_none "earning") in H. congruence.
    + apply check_items_none in He. rewrite He. cbn [andb].
      destruct (Body.deductions b) as [deductions|]; [|split; discriminate].
      destruct (check_items "deduction" deductions) as [r|] eqn:Hd; cbn [option_map].
      * split; [discriminate|]. intros H.
        apply (check_items_none "deduction") in H. congruence.
      * apply check_items_none in Hd. now rewrite Hd.
Qed.


(** ** What a create stores *)

Lemma required_Some {A B : Type} (column : string) (f : A -> option B)
    (a : A) (b : B) :
  Storage.required column f (Some a) = inr b -> f a = Some b.
Proof.
  unfold Storage.required. destruct (f a); [|discriminate]. now intros [= ->].
Qed.

(** The columns of the row that the handler decides. *)
Lemma to_row_columns (E : Storage.engine) (i : Z) (v : Storage.values) (r : Row.t) :
  Storage.to_row E i v = inr r ->
  Row.id r = i
  /\ Storage.varchar 7 (Storage.v_employee_id v) = Some (Row.employee_id r)
  /\ Storage.varchar 7 (Storage.v_month_year v) = Some (Row.month_year r)
  /\ Row.earnings r = Storage.v_earnings v
  /\ Row.deductions r = Storage.v_deductions v
  /\ Row.created_at r = Storage.v_created_at v.
Proof.
  unfold Storage.to_row.
  repeat match goal with
         | |- match ?e with inl _ => _ | inr _ => _ end = _ -> _ =>
             let H := fresh "Hcol" in destruct e eqn:H; [discriminate|]
         end.
  intros [= <-]. cbn.
  repeat match goal with
         | H : Storage.required _ _ (Some _) = inr _ |- _ =>
             apply required_Some in H
         end.
  repeat split; assumption.
Qed.

Lemma varchar_fits (n : nat) (s : string) :
  String.length s <= n -> Storage.varchar n s = Some s.
Proof.
  intros H. unfold Storage.varchar. rewrite chars_length.
  now rewrite (proj2 (Nat.leb_le _ _) H).
Qed.

Lemma validateEmployeeId_length (e : string) :
  validateEmployeeId e = true -> String.length e = 7.
Proof.
  rewrite validateEmployeeId_chars, <- chars_length. unfold JsString.chars.
  destruct (list_ascii_of_string e) as [|c1 [|c2 [|c3 [|c4 [|c5 [|c6 [|c7 [|c8 cs]]]]]]]];
    try discriminate. reflexivity.
Qed.

(** What the insert did when it accepted the row. *)
Lemma insert_accepted (E : Storage.engine) (s s' : Storage.store)
    (v : Storage.values) (i : Z) :
  Storage.insert E s v = inr (s', i) ->
  exists r,
    Storage.to_row E (Storage.next_id s) v = inr r
    /\ Storage.checks E r = inr tt
    /\ ~ In (identity r) (map identity (Storage.rows s))
    /\ i = Storage.next_id s
    /\ s' = {| Storage.rows := Storage.rows s ++ [r];
               Storage.next_id := (Storage.next_id s + 1)%Z |}.
Proof.
  unfold Storage.insert.
  destruct (Storage.to_row E (Storage.next_id s) v) as [|r] eqn:Hrow; [discriminate|].
  destruct (Storage.checks E r) as [|[]] eqn:Hchecks; [discriminate|].
  unfold Storage.unique.
  destruct (existsb _ (Storage.rows s)) eqn:Hex; [discriminate|].
  intros [= <- <-]. exists r.
  destruct (to_row_columns E _ v Hrow) as [Hid _].
  repeat split; try assumption; try congruence.
  intros Hin. apply in_map_iff in Hin. destruct Hin as [r' [Heq Hin]].
  assert (Htrue : existsb (Storage.same_identity (Row.employee_id r) (Row.month_year r))
                    (Storage.rows s) = true).
  { apply existsb_exists. exists r'. split; [assumption|].
    now apply same_identity_iff. }
  congruence.
Qed.

(** The shape of every answer of the create handler. *)
Lemma create_with_created (E : Storage.engine)
    (between : Storage.store -> Storage.store) (now : string)
    (s : Storage.store) (b : Body.t) :
  status (fst (create_with E between now s b)) = 201 ->
  validation b = None
  /\ exists s' i,
       Storage.insert E (between s) (insert_values b now) = inr (s', i)
       /\ create_with E between now s b
          = (reply 201 (Created i "Payslip created successfully"), s').
Proof.
  intros Hcreated.
  destruct (validation b) as [o|] eqn:Hv.
  { exfalso. rewrite (create_with_stopped E between now s b Hv) in Hcreated.
    destruct (validation_stops b Hv) as [[message [Heq _]]|[_ Heq]];
      cbn [fst] in Hcreated; rewrite Heq in Hcreated; discriminate Hcreated. }
  split; [reflexivity|].
  rewrite (create_with_passed E between now s b Hv) in *.
  unfold create_statements in *.
  destruct (0 <? _); [discriminate Hcreated|].
  destruct (Storage.insert E (between s) (insert_values b now)) as [err|[s' i]];
    [discriminate Hcreated|].
  exists s', i. split; reflexivity.
Qed.

Lemma create_with_stored (E : Storage.engine)
    (between : Storage.store -> Storage.store) (now : string)
    (s : Storage.store) (b : Body.t) :
  status (fst (create_with E between now s b)) = 201 ->
  exists row,
    create_with E between now s b
    = (reply 201 (Created (Storage.next_id (between s)) "Payslip created successfully"),
       {| Storage.rows := Storage.rows (between s) ++ [row];
          Storage.next_id := (Storage.next_id (between s) + 1)%Z |})
    /\ Row.id row = Storage.next_id (between s)
    /\ Body.employeeId b = Some (Row.employee_id row)
    /\ Storage.varchar 7 (text (Body.monthYear b)) = Some (Row.month_year row)
    /\ Body.earnings b = Some (Row.earnings row)
    /\ Body.deductions b = Some (Row.deductions row)
    /\ Row.created_at row = now
    /\ Storage.checks E row = inr tt.
Proof.
  intros Hcreated.
  destruct (create_with_created E between now s b Hcreated) as [Hv [s' [i [Hins Hrun]]]].
  destruct (insert_accepted E _ _ Hins) as [row [Hrow [Hchecks [_ [-> ->]]]]].
  destruct (to_row_columns E _ _ Hrow) as [Hid [He [Hm [Hearn [Hded Hat]]]]].
  apply validation_valid in Hv. unfold valid_body in Hv. split_andb.
  exists row. cbn [insert_values Storage.v_employee_id Storage.v_month_year
                   Storage.v_earnings Storage.v_deductions Storage.v_created_at] in *.
  repeat split; try assumption.
  - rewrite varchar_fits in He by
      (match goal with H : validateEmployeeId _ = true |- _ =>
         rewrite (validateEmployeeId_length _ H) end; lia).
    injection He as He.
    destruct (Body.employeeId b) as [e|]; [|discriminate]. cbn [text] in He.
    now rewrite He.
  - destruct (Body.earnings b) as [[|item items]|]; try discriminate.
    now rewrite Hearn.
  - destruct (Body.deductions b) as [items|]; try discriminate.
    now rewrite Hded.
Qed.



Lemma select_id_fresh (s : Storage.store) (row : Row.t) :
  wf s -> Row.id row = Storage.next_id s ->
  filter (fun r => (Row.id r =? Row.id row)%Z) (Storage.rows s ++ [row]) = [row].
Proof.
  intros Hwf Hid. rewrite filter_app. cbn [filter]. rewrite Z.eqb_refl.
  rewrite filter_none; [reflexivity|].
  intros r Hr. apply Z.eqb_neq.
  pose proof (wf_next Hwf) as Hnext. rewrite Forall_forall in Hnext.
  specialize (Hnext r Hr). lia.
Qed.





(** ** How the handlers compose *)

(** The table of the samples holds one row. *)
Lemma stored_row :
  exists r,
    Storage.rows Sample.stored = [r]
    /\ Row.id r = 1%Z
    /\ Row.employee_id r = "ATS0123"
    /\ Row.month_year r = "2024-01".
Proof.
  vm_compute. eexists. split; [reflexivity|]. repeat split.
Qed.

(** The rows of the table before and after any answer of a create. *)
Lemma create_with_rows (E : Storage.engine)
    (between : Storage.store -> Storage.store) (now : string)
    (s : Storage.store) (b : Body.t) :
  (status (fst (create_with E between now s b)) = 201
   /\ exists row,
        Storage.rows (snd (create_with E between now s b))
        = Storage.rows (between s) ++ [row]
        /\ Storage.next_id (snd (create_with E between now s b))
           = (Storage.next_id (between s) + 1)%Z)
  \/ (status (fst (create_with E between now s b)) <> 201
      /\ (snd (create_with E between now s b) = s
          \/ (Storage.rows (snd (create_with E between now s b))
              = Storage.rows (between s)
              /\ (Storage.next_id (between s)
                  <= Storage.next_id (snd (create_with E between now s b)))%Z))).
Proof.
  destruct (Nat.eq_dec (status (fst (create_with E between now s b))) 201) as [Hc|Hc].
  - left. split; [assumption|].
    destruct (create_with_stored E between now s b Hc) as [row [Hrun _]].
    exists row. now rewrite Hrun.
  - right. split; [assumption|].
    destruct (validation b) as [o|] eqn:Hv.
    + left. now rewrite (create_with_stopped E between now s b Hv).
    + rewrite (create_with_passed E between now s b Hv) in *.
      unfold create_statements in *.
      destruct (0 <? _); [now left|].
      destruct (Storage.insert E (between s) (insert_values b now)) as [err|[s' i]];
        [|now contradiction Hc].
      right. cbn [snd]. unfold Storage.rejected.
      destruct (Storage.uses_key E err); cbn [Storage.rows Storage.next_id];
        split; try reflexivity; lia.
Qed.

(** X10: a create never removes or changes a stored row and never hands
    a key back: the rows after it are the rows before it, followed by one
    new row when it answers 201 and by nothing otherwise, and the next key
    of the sequence has not gone down. *)
Theorem create_keeps_rows (E : Storage.engine) (now : string)
    (s : Storage.store) (b : Body.t) :
  exists added,
    Storage.rows (snd (create E now s b)) = Storage.rows s ++ added
    /\ (status (fst (create E now s b)) = 201 -> List.length added = 1)
    /\ (status (fst (create E now s b)) <> 201 -> added = [])
    /\ (Storage.next_id s <= Storage.next_id (snd (create E now s b)))%Z.
Proof.
  unfold create.
  destruct (create_with_rows E (fun s => s) now s b)
    as [[Hc [row [Hrows Hnext]]]|[Hc [Hsame|[Hrows Hnext]]]].
  - exists [row]. rewrite Hrows, Hnext. repeat split; try reflexivity; try lia; try (intros; congruence).
  - exists []. rewrite Hsame, app_nil_r. repeat split; try reflexivity; try lia; try (intros; congruence).
  - exists []. rewrite Hrows, app_nil_r. repeat split; try reflexivity; try lia; try (intros; congruence).
Qed.

(** X11: keys are not used again.  After a stored payslip has been
    deleted, a create that answers 201 returns a key that is larger than
    the key of the deleted payslip and than the key of every payslip that
    was stored with it. *)
Theorem keys_never_reused (E : Storage.engine) (now : string)
    (s : Storage.store) (b : Body.t) (deleted : Row.t) (i : Z) (message : string) :
  wf s -> In deleted (Storage.rows s) ->
  fst (create E now (snd (deleteById s (Row.id deleted))) b)
  = reply 201 (Created i message) ->
  (Row.id deleted < i)%Z
  /\ forall r, In r (Storage.rows s) -> (Row.id r < i)%Z.
Proof.
  intros Hwf Hin Hresp.
  assert (Hcreated : status (fst (create E now (snd (deleteById s (Row.id deleted))) b)) = 201)
    by now rewrite Hresp.
  unfold create in *.
  destruct (create_with_stored E (fun s => s) now _ b Hcreated) as [row [Hrun _]].
  rewrite Hrun in Hresp. cbn [fst] in Hresp. injection Hresp as <- _.
  assert (Hnext : Storage.next_id (snd (deleteById s (Row.id deleted)))
                  = Storage.next_id s).
  { unfold deleteById, Storage.delete_id. cbn.
    now destruct (List.length (Storage.select_id s (Row.id deleted)) =? 0). }
  rewrite Hnext. pose proof (wf_next Hwf) as Hall. rewrite Forall_forall in Hall.
  split; [now apply Hall|exact Hall].
Qed.



Lemma keys_never_reused_witness :
  exists deleted,
    Storage.rows Sample.stored = [deleted]
    /\ fst (create Sample.engine Sample.later
              (snd (deleteById Sample.stored 1)) Sample.payslip)
       = reply 201 (Created 2 "Payslip created successfully")
    /\ (Row.id deleted < 2)%Z.
Proof.
  destruct stored_row as [deleted [Hrows [Hid _]]].
  assert (Hin : In deleted (Storage.rows Sample.stored)) by (rewrite Hrows; now left).
  assert (Hrun : fst (create Sample.engine Sample.later
                        (snd (deleteById Sample.stored 1)) Sample.payslip)
                 = reply 201 (Created 2 "Payslip created successfully"))
    by (vm_compute; reflexivity).
  exists deleted. split; [exact Hrows|]. split; [exact Hrun|].
  rewrite <- Hid in Hrun.
  exact (proj1 (@keys_never_reused Sample.engine Sample.later Sample.stored
                  Sample.payslip deleted 2 "Payslip created successfully"
                  wf_stored Hin Hrun)).
Defined.

Lemma ensure_inr (ok : bool) (constraint : string) (k : Storage.error + unit) :
  match Storage.ensure ok constraint with inl err => inl err | inr _ => k end = inr tt ->
  ok = true /\ k = inr tt.
Proof. unfold Storage.ensure. destruct ok; [now split|discriminate]. Qed.

Lemma check_opt_null_or {A : Type} (rule : A -> bool) (x : option A) :
  Storage.check_opt rule x = true -> null_or rule x.
Proof. destruct x; cbn; [trivial|trivial]. Qed.

Lemma checks_columns (E : Storage.engine) (r : Row.t) :
  Storage.checks E r = inr tt ->
  validateEmployeeId (Row.employee_id r) = true
  /\ test Storage.month_year_regex (Row.month_year r) = true
  /\ null_or (fun t => existsb (String.eqb t) Storage.employee_types)
       (Row.employee_type r)
  /\ null_or (test account_regex) (Row.account_no r)
  /\ null_or Storage.in_range_0_31 (Row.working_days r)
  /\ null_or Storage.in_range_0_31 (Row.lop r)
  /\ null_or validatePAN (Row.pan r)
  /\ Storage.non_negative (Row.gross_pay r) = true
  /\ Storage.non_negative (Row.total_deductions r) = true
  /\ Storage.non_negative (Row.net_pay r) = true.
Proof.
  unfold Storage.checks. intros H.
  repeat match type of H with
  | _ = inr tt =>
      apply ensure_inr in H;
      let Hok := fresh "Hok" in destruct H as [Hok H]
  end.
  repeat split; try assumption; now apply check_opt_null_or.
Qed.

Lemma checked_empty (E : Storage.engine) : checked E Storage.empty.
Proof. constructor. Qed.

Lemma create_with_checked (E : Storage.engine)
    (between : Storage.store -> Storage.store) (now : string)
    (s : Storage.store) (b : Body.t) :
  checked E s -> checked E (between s) ->
  checked E (snd (create_with E between now s b)).
Proof.
  intros Hs Hb. unfold checked in *.
  destruct (create_with_rows E between now s b)
    as [[Hc _]|[Hc [Hsame|[Hrows Hnext]]]].
  - destruct (create_with_stored E between now s b Hc)
      as [row [Hrun [_ [_ [_ [_ [_ [_ Hchecks]]]]]]]].
    rewrite Hrun. cbn [snd Storage.rows].
    apply Forall_app. split; [assumption|]. now constructor.
  - now rewrite Hsame.
  - now rewrite Hrows.
Qed.

Lemma deleteById_checked (E : Storage.engine) (s : Storage.store) (i : Z) :
  checked E s -> checked E (snd (deleteById s i)).
Proof.
  unfold checked, deleteById, Storage.delete_id. intros Hs.
  destruct (List.length (Storage.select_id s i) =? 0); cbn [snd Storage.rows];
    now apply Forall_filter.
Qed.

Lemma reachable_checked (E : Storage.engine) (s : Storage.store) :
  reachable E s -> checked E s.
Proof.
  induction 1 as [|between now s b _ IHs _ IHb|s i _ IHs].
  - apply checked_empty.
  - now apply create_with_checked.
  - now apply deleteById_checked.
Qed.

Lemma period_key_chars (m : string) :
  test Storage.month_year_regex m = true -> exists y mo, period_key m y mo.
Proof.
  intros H. rewrite month_year_regex_chars in H.
  destruct (list_ascii_of_string m) as [|d1 [|d2 [|d3 [|d4 [|dash [|d5 [|d6 [|x l]]]]]]]] eqn:Hm;
    try discriminate.
  split_andb.
  match goal with H : Ascii.eqb _ dash = true |- _ => apply Ascii.eqb_eq in H; subst dash end.
  exists (Numeral.decimal 0 [d1; d2; d3; d4]), (Numeral.decimal 0 [d5; d6]).
  assert (Hkey : m = key d1 d2 d3 d4 d5 d6).
  { rewrite <- (string_of_list_ascii_of_string m), Hm. reflexivity. }
  rewrite Hkey. constructor. cbn [forallb].
  repeat match goal with H : Chars.digit _ = true |- _ => rewrite H; clear H end.
  reflexivity.
Qed.

Lemma map_one_to_one {A B : Type} (column : A -> B) (l : list A) (x y : A) :
  NoDup (map column l) -> In x l -> In y l -> column x = column y -> x = y.
Proof.
  induction l as [|a l IH]; cbn [map]; intros Hnd Hx Hy Heq; [contradiction|].
  inversion Hnd as [|? ? Hnotin Hnd']; subst.
  destruct Hx as [->|Hx], Hy as [->|Hy]; trivial.
  - exfalso. apply Hnotin. rewrite Heq. now apply in_map.
  - exfalso. apply Hnotin. rewrite <- Heq. now apply in_map.
  - now apply IH.
Qed.

(** X12: in every table the handlers can produce from the empty one, with
    creates interleaved with other requests in any way, two stored payslips
    of one employee and one period are the same payslip, and so are two
    stored payslips with one key. *)
Theorem reachable_one_per_period (E : Storage.engine) (s : Storage.store)
    (r1 r2 : Row.t) :
  reachable E s ->
  In r1 (Storage.rows s) -> In r2 (Storage.rows s) ->
  (Row.employee_id r1 = Row.employee_id r2
   /\ Row.month_year r1 = Row.month_year r2)
  \/ Row.id r1 = Row.id r2 ->
  r1 = r2.
Proof.
  intros Hreach H1 H2 Hsame. pose proof (reachable_wf Hreach) as Hwf.
  destruct Hsame as [[He Hm]|Hid].
  - apply (map_one_to_one identity (Storage.rows s)); trivial.
    + exact (wf_identity Hwf).
    + unfold identity. now rewrite He, Hm.
  - apply (map_one_to_one Row.id (Storage.rows s)); trivial.
    exact (wf_keys Hwf).
Qed.

Lemma reachable_stored (E : Storage.engine) (now : string) (b : Body.t) :
  reachable E (snd (create E now Storage.empty b)).
Proof.
  unfold create.
  apply (reachable_create (fun s => s) now b (reachable_empty E) (reachable_empty E)).
Qed.

Lemma reachable_one_per_period_witness :
  exists r,
    Storage.rows Sample.stored = [r]
    /\ forall r', In r' (Storage.rows Sample.stored) -> Row.id r' = Row.id r -> r' = r.
Proof.
  destruct stored_row as [r [Hrows _]].
  exists r. split; [exact Hrows|].
  intros r' Hin Hid.
  refine (@reachable_one_per_period Sample.engine Sample.stored r' r
            (reachable_stored Sample.engine Sample.now Sample.payslip)
            Hin _ (or_intror Hid)).
  rewrite Hrows. now left.
Defined.

(** X13: every payslip in a table the handlers can produce satisfies the
    CHECK constraints of the table: its employee id is one the validator
    accepts, its period has the form [YYYY-MM], its employee type, account
    number, working days, LOP and PAN are NULL or within their rules, and
    its gross pay, total deductions and net pay are not negative. *)
Theorem reachable_rows_checked (E : Storage.engine) (s : Storage.store) (r : Row.t) :
  reachable E s -> In r (Storage.rows s) ->
  validateEmployeeId (Row.employee_id r) = true
  /\ (exists y m, period_key (Row.month_year r) y m)
  /\ null_or (fun t => existsb (String.eqb t) Storage.employee_types)
       (Row.employee_type r)
  /\ null_or (test account_regex) (Row.account_no r)
  /\ null_or Storage.in_range_0_31 (Row.working_days r)
  /\ null_or Storage.in_range_0_31 (Row.lop r)
  /\ null_or validatePAN (Row.pan r)
  /\ Storage.non_negative (Row.gross_pay r) = true
  /\ Storage.non_negative (Row.total_deductions r) = true
  /\ Storage.non_negative (Row.net_pay r) = true.
Proof.
  intros Hreach Hin. pose proof (reachable_checked Hreach) as Hall.
  unfold checked in Hall. rewrite Forall_forall in Hall.
  destruct (checks_columns E r (Hall r Hin))
    as [He [Hm Hrest]].
  split; [assumption|]. split; [now apply period_key_chars|assumption].
Qed.

Lemma reachable_rows_checked_witness :
  exists r,
    Storage.rows Sample.stored = [r]
    /\ validateEmployeeId (Row.employee_id r) = true
    /\ Storage.non_negative (Row.net_pay r) = true.
Proof.
  destruct stored_row as [r [Hrows _]].
  assert (Hin : In r (Storage.rows Sample.stored)) by (rewrite Hrows; now left).
  destruct (@reachable_rows_checked Sample.engine Sample.stored r
              (reachable_stored Sample.engine Sample.now Sample.payslip) Hin)
    as [He [_ [_ [_ [_ [_ [_ [_ [_ Hnet]]]]]]]]].
  exists r. repeat split; assumption.
Defined.



(** ** The period of a request is not validated *)

Lemma period_length (m : string) :
  test Storage.month_year_regex m = true -> String.length m = 7.
Proof.
  intros H. rewrite month_year_regex_chars in H.
  rewrite <- chars_length. unfold JsString.chars.
  destruct (list_ascii_of_string m) as [|d1 [|d2 [|d3 [|d4 [|dash [|d5 [|d6 [|x l]]]]]]]];
    try discriminate. reflexivity.
Qed.

(** X14: the handler checks that a period is present, not its form.  For a
    request that passes validation with a period of at most 7 code units
    that is not of the form [YYYY-MM], on a table that satisfies its
    constraints, the INSERT is rejected by the storage, the answer is the
    generic 500 with the message of the storage, and no row is stored. *)
Theorem create_malformed_period (E : Storage.engine)
    (between : Storage.store -> Storage.store) (now : string)
    (s : Storage.store) (b : Body.t) (m : string) :
  wf s -> validation b = None ->
  Body.monthYear b = Some m -> String.length m <= 7 ->
  test Storage.month_year_regex m = false ->
  exists err,
    create_with E between now s b
    = (reply 500 (Error ("Internal server error: " ++ Storage.message E err)%string),
       Storage.rejected E (between s) err)
    /\ Storage.rows (Storage.rejected E (between s) err) = Storage.rows (between s).
Proof.
  intros Hwf Hv Hm Hlen Hbad.
  assert (Hnone : Storage.select_identity s (text (Body.employeeId b))
                    (text (Body.monthYear b)) = []).
  { apply select_identity_nil. intros Hin. apply in_map_iff in Hin.
    destruct Hin as [r [Hid Hr]]. pose proof (wf_period Hwf) as Hp.
    rewrite Forall_forall in Hp. specialize (Hp r Hr).
    unfold identity in Hid. injection Hid as _ Hmy.
    rewrite Hm in Hmy. cbn [text] in Hmy. congruence. }
  destruct (Storage.insert E (between s) (insert_values b now)) as [err|[s' i]] eqn:Hins.
  - exists err. split.
    + now apply create_insert_rejected.
    + unfold Storage.rejected. now destruct (Storage.uses_key E err).
  - exfalso. destruct (insert_accepted E _ _ Hins) as [r [Hrow [Hchecks _]]].
    destruct (to_row_columns E _ _ Hrow) as [_ [_ [Hmy _]]].
    cbn [insert_values Storage.v_month_year] in Hmy.
    rewrite Hm in Hmy. cbn [text] in Hmy.
    rewrite varchar_fits in Hmy by assumption. injection Hmy as Hmy.
    apply checks_period in Hchecks. congruence.
Qed.

Lemma create_malformed_period_witness :
  exists err,
    create Sample.engine Sample.now Storage.empty (with_period "Jan-24" Sample.payslip)
    = (reply 500 (Error ("Internal server error: " ++ Sample.message err)%string),
       Storage.rejected Sample.engine Storage.empty err).
Proof.
  destruct (@create_malformed_period Sample.engine (fun s => s) Sample.now
              Storage.empty (with_period "Jan-24" Sample.payslip) "Jan-24"
              wf_empty eq_refl eq_refl ltac:(cbn; lia) eq_refl)
    as [err [Hrun _]].
  exists err. exact Hrun.
Defined.

(** ** Deleting *)



(** X16: deleting the payslip a create has just stored, by the key the
    create returned, answers 200 and brings back the rows the INSERT met;
    the key it used is not given back to the sequence. *)
Theorem create_then_delete (E : Storage.engine)
    (between : Storage.store -> Storage.store) (now : string)
    (s : Storage.store) (b : Body.t) (i : Z) (message : string) :
  wf (between s) ->
  fst (create_with E between now s b) = reply 201 (Created i message) ->
  deleteById (snd (create_with E between now s b)) i
  = (reply 200 (Message "Payslip deleted successfully"),
     {| Storage.rows := Storage.rows (between s);
        Storage.next_id := (Storage.next_id (between s) + 1)%Z |}).
Proof.
  intros Hwf Hresp.
  assert (Hcreated : status (fst (create_with E between now s b)) = 201)
    by now rewrite Hresp.
  destruct (create_with_stored E between now s b Hcreated) as [row [Hrun [Hid _]]].
  rewrite Hrun in *. cbn [fst snd] in *. injection Hresp as <- _.
  unfold deleteById, Storage.delete_id, Storage.select_id.
  cbn [Storage.rows Storage.next_id].
  rewrite <- Hid. rewrite (select_id_fresh row Hwf Hid). cbn [List.length Nat.eqb].
  rewrite filter_app. cbn [filter]. rewrite Z.eqb_refl. cbn [negb].
  rewrite app_nil_r, filter_all; [reflexivity|].
  intros r Hr. pose proof (wf_next Hwf) as Hnext. rewrite Forall_forall in Hnext.
  specialize (Hnext r Hr). apply negb_true_iff, Z.eqb_neq. lia.
Qed.

Lemma create_then_delete_witness :
  deleteById Sample.stored 1
  = (reply 200 (Message "Payslip deleted successfully"),
     {| Storage.rows := []; Storage.next_id := 2 |}).
Proof.
  exact (@create_then_delete Sample.engine (fun s => s) Sample.now
           Storage.empty Sample.payslip 1 "Payslip created successfully"
           wf_empty eq_refl).
Defined.

(** ** The listing *)

Lemma place_Permutation (r : Row.t) (l : list Row.t) : Permutation (place r l) (r :: l).
Proof.
  induction l as [|x l IH]; cbn [place]; [reflexivity|].
  destruct (not_after x r); [reflexivity|].
  rewrite IH. apply perm_swap.
Qed.

Lemma select_all_desc_Permutation (s : Storage.store) :
  Permutation (select_all_desc s) (Storage.rows s).
Proof.
  unfold select_all_desc. induction (Storage.rows s) as [|r l IH]; cbn [fold_right].
  - reflexivity.
  - rewrite place_Permutation. now constructor.
Qed.

Lemma place_Sorted (r : Row.t) (l : list Row.t) :
  Sorted (fun a b => not_after b a = true) l ->
  Sorted (fun a b => not_after b a = true) (place r l).
Proof.
  induction l as [|x l IH]; cbn [place]; intros Hs.
  - repeat constructor.
  - destruct (not_after x r) eqn:Hx.
    + constructor; [assumption|now constructor].
    + inversion Hs as [|? ? Hl Hhd]; subst. constructor; [now apply IH|].
      assert (Hrx : not_after r x = true).
      { unfold not_after in *.
        destruct (String.leb_total (Row.created_at r) (Row.created_at x)); congruence. }
      destruct l as [|y l]; cbn [place]; [now constructor|].
      destruct (not_after y r); constructor; trivial.
      now inversion Hhd.
Qed.

Lemma select_all_desc_Sorted (s : Storage.store) :
  Sorted (fun a b => not_after b a = true) (select_all_desc s).
Proof.
  unfold select_all_desc. induction (Storage.rows s) as [|r l IH]; cbn [fold_right].
  - constructor.
  - now apply place_Sorted.
Qed.

Lemma Sorted_map {A B : Type} (f : A -> B) (before : B -> B -> Prop) (l : list A) :
  Sorted (fun a b => before (f a) (f b)) l -> Sorted before (map f l).
Proof.
  induction 1 as [|a l Hl IH Hhd]; cbn [map]; constructor; trivial.
  destruct Hhd; cbn [map]; now constructor.
Qed.

(** X17: the listing answers 200 with one entry for every stored payslip
    and no other entry (its entries are the summaries of the stored rows,
    in some order), and the entries come most recent first by creation
    time. *)
Theorem getAll_listing (s : Storage.store) :
  fst (getAll s) = 200
  /\ Permutation (snd (getAll s)) (map summary (Storage.rows s))
  /\ Sorted newer_first (snd (getAll s)).
Proof.
  unfold getAll. cbn [fst snd]. split; [reflexivity|]. split.
  - apply Permutation_map, select_all_desc_Permutation.
  - apply Sorted_map. exact (select_all_desc_Sorted s).
Qed.

(** ** The read by identity answers with a payslip of the employee *)

(** X18: when the read by identity answers 200, the employee id, the month
    and the year of the query are all present and not empty, the employee
    id is one the validator accepts, and the payslip in the answer is a
    stored payslip of that employee. *)
Theorem getByIdentity_found (s : Storage.store) (q : Query.t) :
  status (getByIdentity s q) = 200 ->
  exists e month year r,
    Query.employeeId q = Some e /\ Query.month q = Some month
    /\ Query.year q = Some year
    /\ validateEmployeeId e = true /\ month <> "" /\ year <> ""
    /\ In r (Storage.rows s) /\ Row.employee_id r = e
    /\ getByIdentity s q = reply 200 (Payslip (view r)).
Proof.
  unfold getByIdentity.
  destruct (Query.employeeId q) as [e|]; [|discriminate].
  destruct (Query.month q) as [month|];
    [|destruct (JsString.falsy (Some e)); discriminate].
  destruct (Query.year q) as [year|];
    [|destruct (JsString.falsy (Some e)), (JsString.falsy (Some month)); discriminate].
  destruct (JsString.falsy (Some e)) eqn:He; [discriminate|].
  destruct (JsString.falsy (Some month)) eqn:Hmonth; [discriminate|].
  destruct (JsString.falsy (Some year)) eqn:Hyear; [discriminate|].
  cbn [orb text].
  destruct (validateEmployeeId e) eqn:Hvalid; [|discriminate]. cbn [negb].
  destruct (Storage.select_like s e _) as [|r l] eqn:Hsel; [discriminate|].
  intros _. exists e, month, year, r.
  assert (Hin : In r (Storage.select_like s e (period_of year month ++ "%")%string))
    by (rewrite Hsel; now left).
  unfold Storage.select_like in Hin. apply filter_In in Hin.
  destruct Hin as [Hr Hmatch]. apply andb_prop in Hmatch.
  destruct Hmatch as [Heq _]. apply String.eqb_eq in Heq.
  repeat split; trivial.
  - intros ->. discriminate Hmonth.
  - intros ->. discriminate Hyear.
Qed.

Lemma getByIdentity_found_witness :
  exists r,
    In r (Storage.rows Sample.stored) /\ Row.employee_id r = "ATS0123"
    /\ getByIdentity Sample.stored (query "ATS0123" "1" "2024")
       = reply 200 (Payslip (view r)).
Proof.
  destruct (@getByIdentity_found Sample.stored (query "ATS0123" "1" "2024") eq_refl)
    as [e [month [year [r [He [_ [_ [_ [_ [_ [Hin [Hr Hget]]]]]]]]]]]].
  exists r. injection He as <-. repeat split; assumption.
Defined.

(** ** A second payslip for one employee and period is never stored *)

Lemma create_with_status (E : Storage.engine)
    (between : Storage.store -> Storage.store) (now : string)
    (s : Storage.store) (b : Body.t) :
  status (fst (create_with E between now s b)) = 201
  \/ status (fst (create_with E between now s b)) = 400
  \/ status (fst (create_with E between now s b)) = 500.
Proof.
  destruct (validation b) as [o|] eqn:Hv.
  - rewrite (create_with_stopped E between now s b Hv). cbn [fst].
    destruct (validation_stops b Hv) as [[message [-> _]]|[_ ->]]; cbn; tauto.
  - rewrite (create_with_passed E between now s b Hv). cbn [fst].
    unfold create_statements.
    destruct (0 <? _); [cbn; tauto|].
    destruct (Storage.insert E (between s) (insert_values b now)) as [err|[s' i]];
      cbn; tauto.
Qed.

(** X19: when the table the INSERT of a create meets holds a payslip with
    the employee id and the period of the request, however it got there,
    the create answers 400 or 500, never 201, and stores nothing: the rows
    after it are the rows it started from, or the rows the INSERT met. *)
Theorem create_second_refused (E : Storage.engine)
    (between : Storage.store -> Storage.store) (now : string)
    (s : Storage.store) (b : Body.t) (r : Row.t) :
  wf (between s) -> In r (Storage.rows (between s)) ->
  Body.employeeId b = Some (Row.employee_id r) ->
  Body.monthYear b = Some (Row.month_year r) ->
  (status (fst (create_with E between now s b)) = 400
   \/ status (fst (create_with E between now s b)) = 500)
  /\ (Storage.rows (snd (create_with E between now s b)) = Storage.rows s
      \/ Storage.rows (snd (create_with E between now s b))
         = Storage.rows (between s)).
Proof.
  intros Hwf Hr He Hm.
  assert (Hnot : status (fst (create_with E between now s b)) <> 201).
  { intros Hcreated.
    destruct (create_with_created E between now s b Hcreated) as [Hv [s' [i [Hins _]]]].
    destruct (insert_accepted E _ _ Hins) as [row [Hrow [_ [Hfresh _]]]].
    destruct (to_row_columns E _ _ Hrow) as [_ [He' [Hm' _]]].
    cbn [insert_values Storage.v_employee_id Storage.v_month_year] in He', Hm'.
    apply validation_valid in Hv. unfold valid_body in Hv. split_andb.
    match goal with H : validateEmployeeId _ = true |- _ =>
      apply validateEmployeeId_length in H; rename H into Hlen end.
    rewrite varchar_fits in He' by lia. injection He' as He'.
    rewrite He in He'. cbn [text] in He'.
    rewrite Hm in Hm'. cbn [text] in Hm'.
    pose proof (wf_period Hwf) as Hp. rewrite Forall_forall in Hp.
    rewrite varchar_fits in Hm' by (rewrite (period_length _ (Hp r Hr)); lia).
    injection Hm' as Hm'.
    apply Hfresh. apply in_map_iff. exists r. split; [|assumption].
    unfold identity. congruence. }
  split.
  - destruct (create_with_status E between now s b) as [H|H]; [contradiction|exact H].
  - destruct (create_with_rows E between now s b)
      as [[Hc _]|[_ [Hsame|[Hrows _]]]]; [contradiction| |].
    + left. now rewrite Hsame.
    + now right.
Qed.

Lemma create_second_refused_witness :
  status (fst (create_with Sample.engine (fun _ => Sample.stored) Sample.later
                 Storage.empty Sample.payslip)) <> 201
  /\ Storage.rows (snd (create_with Sample.engine (fun _ => Sample.stored) Sample.later
                          Storage.empty Sample.payslip))
     = Storage.rows Sample.stored.
Proof.
  destruct stored_row as [r [Hrows [_ [He Hm]]]].
  assert (Hin : In r (Storage.rows Sample.stored)) by (rewrite Hrows; now left).
  assert (He' : Body.employeeId Sample.payslip = Some (Row.employee_id r))
    by (now rewrite He).
  assert (Hm' : Body.monthYear Sample.payslip = Some (Row.month_year r))
    by (now rewrite Hm).
  destruct (@create_second_refused Sample.engine (fun _ => Sample.stored) Sample.later
              Storage.empty Sample.payslip r wf_stored Hin He' Hm')
    as [Hstatus [Hkept|Hkept]].
  - exfalso. revert Hkept. vm_compute. discriminate.
  - split; [destruct Hstatus as [->| ->]; discriminate|exact Hkept].
Defined.

(** ** The days of every period key *)

Lemma MakeDay_carry (yr m : Z) :
  JsDate.MakeDay yr m 0
  = JsDate.MakeDay (yr + (m - 1) / 12) ((m - 1) mod 12 + 1) 0.
Proof.
  unfold JsDate.MakeDay.
  assert (Hy : (yr + m / 12 = yr + (m - 1) / 12 + ((m - 1) mod 12 + 1) / 12)%Z)
    by (Z.div_mod_to_equations; lia).
  assert (Hm : (m mod 12 = ((m - 1) mod 12 + 1) mod 12)%Z)
    by (Z.div_mod_to_equations; lia).
  now rewrite Hy, Hm.
Qed.

(** X20: for every period key [YYYY-MM] of digits, months 00 and 13 to 99
    and years 0000 to 0099 included, [getDaysInMonth] is the number of days
    of the calendar month the [Date] constructor makes of it: a year from 0
    to 99 stands for 1900 + year, a month out of 1..12 carries into the
    year; the result is always from 28 to 31. *)
Theorem getDaysInMonth_every_key (y1 y2 y3 y4 m1 m2 : ascii) :
  forallb Chars.digit [y1; y2; y3; y4; m1; m2] = true ->
  getDaysInMonth (key y1 y2 y3 y4 m1 m2)
  = Some (days_of_key (Numeral.decimal 0 [y1; y2; y3; y4])
            (Numeral.decimal 0 [m1; m2]))
  /\ (28 <= days_of_key (Numeral.decimal 0 [y1; y2; y3; y4])
              (Numeral.decimal 0 [m1; m2]) <= 31)%Z.
Proof.
  intros H.
  assert (Hy : forallb Chars.digit [y1; y2; y3; y4] = true).
  { cbn [forallb] in *. split_andb.
    repeat match goal with H : Chars.digit _ = true |- _ => rewrite H; clear H end.
    reflexivity. }
  assert (Hm1 : Chars.digit m1 = true) by (cbn [forallb] in H; now split_andb).
  assert (Hm2 : Chars.digit m2 = true) by (cbn [forallb] in H; now split_andb).
  rewrite getDaysInMonth_key by assumption.
  pose proof (year_range _ _ _ _ Hy) as Hyear.
  assert (Hmonth : (0 <= Numeral.decimal 0 [m1; m2] <= 99)%Z).
  { apply digit_value_range in Hm1, Hm2. cbn [Numeral.decimal]. lia. }
  set (y := Numeral.decimal 0 [y1; y2; y3; y4]) in *.
  set (m := Numeral.decimal 0 [m1; m2]) in *.
  unfold JsDate.make, JsDate.getDate, days_of_key, calendar_days.
  set (yr := if ((0 <=? y) && (y <=? 99))%Z then (1900 + y)%Z else y).
  assert (Hyr : (100 <= yr <= 9999)%Z).
  { subst yr. destruct ((0 <=? y) && (y <=? 99))%Z eqn:Htwo.
    - apply andb_prop in Htwo. destruct Htwo as [_ Hle]. apply Z.leb_le in Hle. lia.
    - apply andb_false_iff in Htwo. rewrite !Z.leb_gt in Htwo. lia. }
  rewrite MakeDay_carry.
  set (yr' := (yr + (m - 1) / 12)%Z). set (m' := ((m - 1) mod 12 + 1)%Z).
  assert (Hm' : (1 <= m' <= 12)%Z) by (subst m'; Z.div_mod_to_equations; lia).
  assert (Hyr' : (99 <= yr' <= 10007)%Z) by (subst yr'; Z.div_mod_to_equations; lia).
  assert (Hday := @DateFacts.MakeDay_last yr' m' Hm').
  assert (Hend := @DateFacts.month_end_range yr' m' Hm').
  assert (Hclip : (Z.abs (JsDate.MakeDay yr' m' 0) <=? 100000000)%Z = true).
  { apply Z.leb_le. rewrite Hday.
    destruct (DateFacts.DaysInYear_cases yr');
      unfold JsDate.DayFromYear; Z.div_mod_to_equations; lia. }
  rewrite Hclip. cbn [option_map].
  rewrite DateFacts.last_day_of_month, leap_year_InLeapYear by assumption.
  split; [reflexivity|].
  unfold month_length.
  assert (Hc : (m' = 1 \/ m' = 2 \/ m' = 3 \/ m' = 4 \/ m' = 5 \/ m' = 6 \/ m' = 7
              \/ m' = 8 \/ m' = 9 \/ m' = 10 \/ m' = 11 \/ m' = 12)%Z) by lia.
  destruct Hc as [->|[->|[->|[->|[->|[->|[->|[->|[->|[->|[->| ->]]]]]]]]]]];
    destruct (leap_year yr'); lia.
Qed.

Lemma getDaysInMonth_every_key_witness :
  getDaysInMonth "2024-00" = Some 31%Z
  /\ getDaysInMonth "1999-14" = Some 29%Z
  /\ getDaysInMonth "0000-02" = Some 28%Z.
Proof.
  split; [|split].
  - exact (proj1 (@getDaysInMonth_every_key "2" "0" "2" "4" "0" "0" eq_refl)).
  - exact (proj1 (@getDaysInMonth_every_key "1" "9" "9" "9" "1" "4" eq_refl)).
  - exact (proj1 (@getDaysInMonth_every_key "0" "0" "0" "0" "0" "2" eq_refl)).
Defined.

(** ** The read by key *)


(** ** The wildcards of the look-up *)

Lemma like_after_plain (p q rest : list ascii) :
  forallb plain p = true ->
  Storage.like (p ++ q) (p ++ rest) = Storage.like q rest.
Proof.
  induction p as [|c p IH]; intros Hp; [reflexivity|].
  cbn [forallb] in Hp. apply andb_prop in Hp. destruct Hp as [Hc Hp].
  cbn [app]. rewrite like_plain by assumption.
  now rewrite Ascii.eqb_refl, IH.
Qed.

Lemma like_percent_percent (subject : list ascii) :
  Storage.like ["%"; "%"]%char subject = true.
Proof.
  destruct subject as [|x subject].
  - reflexivity.
  - change (Storage.like ["%"; "%"]%char (x :: subject))
      with (Storage.like ["%"%char] (x :: subject)
            || Storage.like ["%"; "%"]%char subject).
    now rewrite like_percent.
Qed.

(** X22: the month and the year of a query go into the LIKE pattern as
    they are.  For a month of [%], a valid employee id and a year without
    wildcards, the read by identity answers 200 with a stored payslip of
    the employee as soon as the employee has a payslip whose period begins
    with the year, a dash and [0]. *)
Theorem getByIdentity_wildcard (s : Storage.store) (e year : string)
    (r : Row.t) (rest : list ascii) :
  validateEmployeeId e = true -> year <> "" ->
  forallb plain (JsString.chars year) = true ->
  In r (Storage.rows s) -> Row.employee_id r = e ->
  JsString.chars (Row.month_year r) = JsString.chars year ++ "-"%char :: "0"%char :: rest ->
  exists found,
    In found (Storage.rows s) /\ Row.employee_id found = e
    /\ getByIdentity s (query e "%" year) = reply 200 (Payslip (view found)).
Proof.
  intros He Hyear Hplain Hr Hid Hperiod.
  unfold getByIdentity, query. cbn [Query.employeeId Query.month Query.year text].
  assert (Hfalsy : forall x, x <> "" -> JsString.falsy (Some x) = false).
  { intros [|c x] Hx; [congruence|reflexivity]. }
  assert (He' : JsString.falsy (Some e) = false).
  { apply Hfalsy. intros ->. discriminate He. }
  rewrite (Hfalsy year Hyear), He', He. cbn [orb negb].
  change (JsString.falsy (Some "%")) with false. cbv iota.
  assert (Hin : In r (Storage.select_like s e (period_of year "%" ++ "%")%string)).
  { unfold Storage.select_like. apply filter_In. split; [assumption|].
    apply andb_true_intro. split; [now apply String.eqb_eq|].
    unfold period_of. rewrite !chars_append, Hperiod.
    change (JsString.chars (JsString.padStart0 2 "%")) with ["0"; "%"]%char.
    change (JsString.chars "-") with ["-"%char].
    change (JsString.chars "%") with ["%"%char].
    replace ((JsString.chars year ++ ["-"%char] ++ ["0"; "%"]%char) ++ ["%"%char])
      with ((JsString.chars year ++ ["-"; "0"]%char) ++ ["%"; "%"]%char)
      by now rewrite <- !app_assoc.
    replace (JsString.chars year ++ "-"%char :: "0"%char :: rest)
      with ((JsString.chars year ++ ["-"; "0"]%char) ++ rest)
      by now rewrite <- app_assoc.
    rewrite like_after_plain; [apply like_percent_percent|].
    rewrite forallb_app, Hplain. reflexivity. }
  destruct (Storage.select_like s e (period_of year "%" ++ "%")%string)
    as [|found l] eqn:Hsel; [contradiction|].
  exists found.
  assert (Hfound : In found (Storage.select_like s e (period_of year "%" ++ "%")%string))
    by (rewrite Hsel; now left).
  unfold Storage.select_like in Hfound. apply filter_In in Hfound.
  destruct Hfound as [Hf Hmatch]. apply andb_prop in Hmatch.
  destruct Hmatch as [Heq _]. apply String.eqb_eq in Heq.
  repeat split; assumption.
Qed.

Lemma getByIdentity_wildcard_witness :
  exists found,
    In found (Storage.rows Sample.stored)
    /\ Row.employee_id found = "ATS0123"
    /\ getByIdentity Sample.stored (query "ATS0123" "%" "2024")
       = reply 200 (Payslip (view found)).
Proof.
  destruct stored_row as [r [Hrows [_ [He Hm]]]].
  assert (Hr : In r (Storage.rows Sample.stored)) by (rewrite Hrows; now left).
  exact (@getByIdentity_wildcard Sample.stored "ATS0123" "2024" r ["1"%char]
           eq_refl ltac:(discriminate) eq_refl Hr He
           ltac:(rewrite Hm; reflexivity)).
Defined.
